(** * perfectogo/log: the Logger writer, its header formatter and the level
    functions, embedded from [log.go].

    Conventions of the embedding.
    - A Go [string] and a [[]byte] are both sequences of bytes; both are
      modelled by [String.string], whose characters are the 256 bytes.
      The conversions [[]byte(s)] and [string(b)] are the identity.
    - A Go [int] is a 64-bit two's complement integer, modelled by [Z].
      Bit tests use [Z.land]; a value is read as an [int] through [int64].
    - A run-time panic is the result [None]. *)

From Stdlib Require Import ZArith Bool List Ascii String DecimalString Lia.
From Stdlib Require Import Permutation.
Import ListNotations.
Local Open Scope string_scope.
Local Open Scope Z_scope.

(** ** Flag bitset ([const ( Ldate = 1 << iota ... )]) *)

Definition Ldate         : Z := Z.shiftl 1 0.
Definition Ltime         : Z := Z.shiftl 1 1.
Definition Lmicroseconds : Z := Z.shiftl 1 2.
Definition Llongfile     : Z := Z.shiftl 1 3.
Definition Lshortfile    : Z := Z.shiftl 1 4.
Definition LUTC          : Z := Z.shiftl 1 5.
Definition Lmsgprefix    : Z := Z.shiftl 1 6.
Definition LstdFlags     : Z := Z.lor Ldate Ltime.

(** [l.flag & m != 0] *)
Definition has (flag m : Z) : bool := negb (Z.land flag m =? 0).

(** ** Machine integers and bytes *)

(** The value of a Go [int]: the representative of [z] modulo [2^64] in
    [-2^63, 2^63). *)
Definition int64 (z : Z) : Z := (z + 2^63) mod 2^64 - 2^63.

(** The conversion [byte(x)] of an [int]: the low eight bits. *)
Definition byte (x : Z) : ascii := ascii_of_N (Z.to_N (x mod 256)).

(** ['0'], ['/'] and the other byte literals of the source. *)
Definition ch (c : ascii) : string := String c EmptyString.
Definition slash : ascii := "/"%char.
Definition newline : ascii := ascii_of_nat 10.
Definition nl : string := ch newline.

(** ** Operations on a buffer [buf *[]byte]

    A buffer operation transforms the bytes accumulated so far, or panics. *)

Definition BufOp : Type := string -> option string.

Definition skip : BufOp := fun buf => Some buf.

(** [append] of the bytes of [s] to the buffer *)
Definition append_bytes (s : string) : BufOp := fun buf => Some (buf ++ s).

Definition seq_op (a b : BufOp) : BufOp :=
  fun buf => match a buf with Some buf' => b buf' | None => None end.

Definition when (c : bool) (a : BufOp) : BufOp := if c then a else skip.

Declare Scope bufop_scope.
Delimit Scope bufop_scope with bufop.
Bind Scope bufop_scope with BufOp.
Notation "a ;; b" := (seq_op a b) (at level 61, right associativity) : bufop_scope.

(** A buffer operation that only appends and never panics. *)
Definition appends (op : BufOp) : Prop :=
  forall b, exists d, op b = Some (b ++ d).

(** A buffer operation that never panics and appends the same bytes to
    every buffer. *)
Definition uniform (op : BufOp) : Prop :=
  exists d, forall b, op b = Some (b ++ d).

(** ** [itoa]

    The decimal digits are assembled from the right in the array
    [b [20]byte].  [slots] is [bp + 1], the number of cells of [b] not yet
    written; [acc] is [b[bp+1:]].  Indexing [b[bp]] with no cell left is an
    index-out-of-range panic. *)
Fixpoint itoa_loop (slots : nat) (i wid : Z) (acc : string) : option string :=
  match slots with
  | O => None
  | S slots' =>
      if (10 <=? i) || (1 <? wid) then
        let q := Z.quot i 10 in
        itoa_loop slots' q (wid - 1) (String (byte (48 + i - q * 10)) acc)
      else
        Some (String (byte (48 + i)) acc)
  end.

Definition itoa (i wid : Z) : BufOp :=
  fun buf =>
    match itoa_loop 20 (int64 i) wid "" with
    | Some digits => Some (buf ++ digits)
    | None => None
    end.

(** ** [time.Time]

    The type and its methods belong to the standard library; [Date] and
    [Clock] are its calendar computation.  An instant is a number of seconds
    since the Unix epoch and a nanosecond offset inside that second; the
    location contributes the offset from UTC that is in force at that
    instant.  [nsec_ok] is the invariant of the Go type: [Nanosecond] lies
    in [0, 999999999]. *)
Record Time : Type := mkTime {
  unixSec : Z;
  nsec : Z;
  zoneOffset : Z;
  nsec_ok : (0 <=? nsec) && (nsec <? 1000000000) = true
}.

(** [t.UTC()] *)
Definition UTC (t : Time) : Time :=
  mkTime (unixSec t) (nsec t) 0 (nsec_ok t).

(** Seconds since the epoch on the wall clock of [t]'s location. *)
Definition wallSec (t : Time) : Z := unixSec t + zoneOffset t.

(** Proleptic Gregorian date of the day numbered [z] from 1970-01-01. *)
Definition civil (z : Z) : Z * Z * Z :=
  let z := z + 719468 in
  let era := z / 146097 in
  let doe := z - era * 146097 in
  let yoe := (doe - doe / 1460 + doe / 36524 - doe / 146096) / 365 in
  let doy := doe - (365 * yoe + yoe / 4 - yoe / 100) in
  let mp := (5 * doy + 2) / 153 in
  let d := doy - (153 * mp + 2) / 5 + 1 in
  let m := if mp <? 10 then mp + 3 else mp - 9 in
  let y := yoe + era * 400 + (if m <=? 2 then 1 else 0) in
  (y, m, d).

(** [t.Date()] *)
Definition Date (t : Time) : Z * Z * Z := civil (wallSec t / 86400).

(** [t.Clock()] *)
Definition Clock (t : Time) : Z * Z * Z :=
  let sod := wallSec t mod 86400 in
  (sod / 3600, sod mod 3600 / 60, sod mod 60).

(** [t.Nanosecond()] *)
Definition Nanosecond (t : Time) : Z := nsec t.

(** ** The Logger *)

(** An error value, known by its textual form [Error()]. *)
Record error_value : Type := mkError { Error_text : string }.

(** The Go interface type [error]: [None] is [nil]. *)
Definition error : Type := option error_value.

(** A non-nil [io.Writer], known by its identity: [io.Discard], or the
    sink numbered [id]. *)
Inductive Writer : Type :=
| Discard : Writer
| Sink (id : nat) : Writer.

(** [w == io.Discard] *)
Definition is_Discard (w : Writer) : bool :=
  match w with Discard => true | Sink _ => false end.

(** The fields of [Logger] that [mu] protects, and [isDiscard]. *)
Record Logger : Type := mkLogger {
  prefix : string;
  flag : Z;
  out : Writer;
  buf : string;
  isDiscard : Z
}.

(** Field updates [l.out = w], [l.buf = b] and the store to [l.isDiscard]. *)
Definition set_out (l : Logger) (w : Writer) : Logger :=
  mkLogger (prefix l) (flag l) w (buf l) (isDiscard l).
Definition set_buf (l : Logger) (b : string) : Logger :=
  mkLogger (prefix l) (flag l) (out l) b (isDiscard l).
Definition set_isDiscard (l : Logger) (d : Z) : Logger :=
  mkLogger (prefix l) (flag l) (out l) (buf l) d.

(** [New]: the fields not named in the literal start at their zero value,
    [buf] as the nil slice and [isDiscard] as 0. *)
Definition New (w : Writer) (pfx : string) (flg : Z) : Logger :=
  let l := mkLogger pfx flg w "" 0 in
  if is_Discard w then set_isDiscard l 1 else l.

(** [SetOutput]; the mutex is held from entry to return. *)
Definition SetOutput (l : Logger) (w : Writer) : Logger :=
  let l := set_out l w in
  let d := 0 in
  let d := if is_Discard w then 1 else d in
  set_isDiscard l d.

(** The invariant the comment on [isDiscard] states: the flag is set
    exactly when [out == io.Discard]. *)
Definition discard_invariant (l : Logger) : Prop :=
  isDiscard l <> 0 <-> out l = Discard.

(** The part of a path kept by [Lshortfile]: the loop
    [for i := len(file) - 1; i > 0; i--] looks for ['/'] at the indices
    [len(file)-1] down to [1].  [short_loop file n] runs it from [i = n]. *)
Fixpoint short_loop (file : string) (n : nat) : string :=
  match n with
  | O => file
  | S n' =>
      match get n file with
      | Some c =>
          if Ascii.eqb c slash
          then substring (S n) (length file - S n) file
          else short_loop file n'
      | None => short_loop file n'
      end
  end.

Definition shorten (file : string) : string :=
  short_loop file (length file - 1).

(** No byte of [s] is a path separator. *)
Fixpoint no_slash (s : string) : bool :=
  match s with
  | EmptyString => true
  | String c s' => negb (Ascii.eqb c slash) && no_slash s'
  end.

(** ** [formatHeader] *)
Definition formatHeader (l : Logger) (t : Time) (file : string) (line : Z)
  : BufOp :=
  (when (negb (has (flag l) Lmsgprefix))
     (append_bytes (prefix l)) ;;
   when (has (flag l) (Z.lor Ldate (Z.lor Ltime Lmicroseconds)))
     (let t := if has (flag l) LUTC then UTC t else t in
      when (has (flag l) Ldate)
        (let '(year, month, day) := Date t in
         itoa year 4 ;;
         append_bytes "/" ;;
         itoa month 2 ;;
         append_bytes "/" ;;
         itoa day 2 ;;
         append_bytes " ") ;;
      when (has (flag l) (Z.lor Ltime Lmicroseconds))
        (let '(hour, min, sec) := Clock t in
         itoa hour 2 ;;
         append_bytes ":" ;;
         itoa min 2 ;;
         append_bytes ":" ;;
         itoa sec 2 ;;
         when (has (flag l) Lmicroseconds)
           (append_bytes "." ;;
            itoa (Z.quot (Nanosecond t) 1000) 6) ;;
         append_bytes " ")) ;;
   when (has (flag l) (Z.lor Lshortfile Llongfile))
     (let file := if has (flag l) Lshortfile then shorten file else file in
      append_bytes file ;;
      append_bytes ":" ;;
      itoa line (-1) ;;
      append_bytes ": ") ;;
   when (has (flag l) Lmsgprefix)
     (append_bytes (prefix l)))%bufop.

(** ** Decimal numerals, as the specification words them *)

(** The digit character of [d], for [0 <= d <= 9]. *)
Definition digit (d : Z) : ascii := ascii_of_N (Z.to_N (48 + d)).

(** The [w] low-order decimal digits of [n], most significant first: the
    zero-padded numeral of width [w] of a number below [10^w]. *)
Fixpoint fixed (w : nat) (n : Z) : string :=
  match w with
  | O => ""
  | S w' => fixed w' (n / 10) ++ ch (digit (n mod 10))
  end.

(** The numeral of [n >= 0] without padding; [fuel] bounds the number of
    digits after the first. *)
Fixpoint decimal_fuel (fuel : nat) (n : Z) : string :=
  match fuel with
  | O => ch (digit n)
  | S fuel' =>
      if n <? 10 then ch (digit n)
      else decimal_fuel fuel' (n / 10) ++ ch (digit (n mod 10))
  end.

Definition decimal (n : Z) : string := decimal_fuel (Z.to_nat (Z.log2 n)) n.

Definition year_of (t : Time) : Z := fst (fst (Date t)).






(** ** The header as the specification words it *)

(** [YYYY/MM/DD ] *)
Definition spec_date (t : Time) : string :=
  let '(year, month, day) := Date t in
  fixed 4 year ++ "/" ++ fixed 2 month ++ "/" ++ fixed 2 day ++ " ".

(** [HH:MM:SS], then [.NNNNNN] with microseconds, then a space. *)
Definition spec_clock (micro : bool) (t : Time) : string :=
  let '(hour, min, sec) := Clock t in
  fixed 2 hour ++ ":" ++ fixed 2 min ++ ":" ++ fixed 2 sec
  ++ (if micro then "." ++ fixed 6 (Nanosecond t / 1000) else "") ++ " ".

(** The instant whose fields are printed. *)
Definition header_time (l : Logger) (t : Time) : Time :=
  if has (flag l) LUTC then UTC t else t.

(** The path that is printed. *)
Definition header_path (l : Logger) (file : string) : string :=
  if has (flag l) Lshortfile then shorten file else file.

(** The four parts of the header, in their order. *)
Definition spec_header (l : Logger) (t : Time) (file : string) (line : Z)
  : string :=
  let f := flag l in
  (if has f Lmsgprefix then "" else prefix l)
  ++ (if has f Ldate then spec_date (header_time l t) else "")
  ++ (if has f Ltime || has f Lmicroseconds
      then spec_clock (has f Lmicroseconds) (header_time l t) else "")
  ++ (if has f Lshortfile || has f Llongfile
      then header_path l file ++ ":" ++ decimal line ++ ": " else "")
  ++ (if has f Lmsgprefix then prefix l else "").

(** ** Newlines at the end of a line *)

(** The number of newline bytes that end [s]. *)
Fixpoint trailing_newlines (s : string) : nat :=
  match s with
  | EmptyString => 0
  | String c s' =>
      let n := trailing_newlines s' in
      if (n =? length s')%nat && Ascii.eqb c newline then S n else n
  end.

(** [s] ends with a newline byte. *)
Definition ends_with_newline (s : string) : bool :=
  match get (length s - 1) s with
  | Some c => Ascii.eqb c newline
  | None => false
  end.

(** ** A concrete instant *)

(** 2024-01-05T00:00:00Z: 19727 days after the epoch, in UTC. *)
Definition t_2024_01_05 : Time := mkTime (19727 * 86400) 0 0 eq_refl.

(** ** The run-time environment

    [runtime.Caller], [runtime.FuncForPC], [time.Now], [fmt.Sprint] and the
    writers behind [io.Writer] live outside the package.  A run records the
    calls it makes to them, in order. *)

(** A stack frame as [runtime.Caller] reports it.  The frame of a function
    stands for all its program points: of the frames of this package only
    the function name is ever read. *)
Record Frame : Type := mkFrame {
  fr_pc : Z;
  fr_file : string;
  fr_line : Z
}.

(** The call stack seen from a function: [st k] is the frame [k] levels up,
    [st 0] the function itself, and [None] when there is no such frame. *)
Definition Stack : Type := Z -> option Frame.

(** The stack seen from a callee whose own frame is [self]. *)
Definition enter (self : Frame) (st : Stack) : Stack :=
  fun k => if k =? 0 then Some self else st (k - 1).

Definition tab : ascii := ascii_of_nat 9.

(** [strconv.Itoa] *)
Definition strconv_Itoa (i : Z) : string :=
  DecimalString.NilZero.string_of_int (Z.to_int i).

(** [len(s) == 0 || s[len(s)-1] != '\n'] *)
Definition needs_newline (s : string) : bool :=
  (length s =? 0)%nat
  || match get (length s - 1) s with
     | Some c => negb (Ascii.eqb c newline)
     | None => true
     end.

(** ** A concrete run-time, for the closed instances *)

(** Modelled from the spec: the file that declares the color constants is
    not among the sources.  The specification gives the escape sequence of
    [Green]; the other entries are the usual ANSI sequences.  Only the
    closed instances below use these values. *)
Definition esc : string := ch (ascii_of_nat 27).
Definition ansi_Reset : string := esc ++ "[0m".
Definition ansi_Red : string := esc ++ "[31m".
Definition ansi_Green : string := esc ++ "[32m".
Definition ansi_Yellow : string := esc ++ "[33m".
Definition ansi_Blue : string := esc ++ "[34m".
Definition ansi_White : string := esc ++ "[37m".

(** A level function called from line 12 of [/app/main.go]. *)
Definition ex_level : Frame := mkFrame 4096 "/go/log/log.go" 0.
Definition ex_user : Frame := mkFrame 8192 "/app/main.go" 12.
Definition ex_stack : Stack :=
  fun k => if k =? 0 then Some ex_level
           else if k =? 1 then Some ex_user else None.
Definition ex_callee : Frame := mkFrame 4500 "/go/log/log.go" 0.
Definition ex_funcName (pc : Z) : string :=
  if pc =? 4096 then "github.com/perfectogo/log.Error" else "main.main".

(** [fmt.Sprint] of string operands: no space is added between them. *)
Definition ex_Sprint (v : list string) : string := String.concat "" v.

(** Sinks that accept every write. *)
Definition ex_sink_write (id : nat) (p : string) : error := None.

(** The standard logger [New(os.Stderr, "", LstdFlags)], and a logger on
    [io.Discard]. *)
Definition ex_std : Logger := New (Sink 2) "" LstdFlags.
Definition ex_silent : Logger := New Discard "" LstdFlags.

(** A logger that prints the file, so that [Output] gives up the mutex
    around [runtime.Caller]. *)
Definition ex_filed : Logger := New (Sink 2) "" (Z.lor LstdFlags Lshortfile).

(** A scheduler that picks two calls in turn. *)
Definition ex_schedule : list nat :=
  flat_map (fun _ => [0; 1]%nat) (seq 0 150).

(** The same instant on a clock one hour ahead of UTC. *)
Definition t_2024_01_05_cet : Time := mkTime (19727 * 86400) 0 3600 eq_refl.


(** [main], declared on line 9 of [/app/main.go], with no frame above it. *)
Definition ex_main : Frame := mkFrame 8192 "/app/main.go" 9.
Definition ex_main_stack : Stack := fun k => if k =? 0 then Some ex_main else None.

Section Runtime.

(** The color palette, declared in a file of the package that holds only
    these string constants. *)
Variables Green Red Yellow Blue White Reset : string.

(** The operands of the variadic level functions, and [fmt.Sprint]. *)
Variable any : Type.
Variable Sprint : list any -> string.

(** [runtime.FuncForPC(pc).Name()] *)
Variable funcName : Z -> string.

(** The frames of [Output], [getCurrentFuncName] and the function literal
    of [Println] when they are the running function. *)
Variables self_Output self_getCurrentFuncName self_fn : Frame.

(** The error with which sink [id] answers [Write(p)]. *)
Variable sink_write : nat -> string -> error.

Inductive Event : Type :=
| EvNow : Event
| EvCaller (skip : Z) : Event
| EvFuncForPC (pc : Z) : Event
| EvSprint (v : list any) : Event
| EvWrite (w : Writer) (p : string) : Event.

(** A run: the calls made so far are threaded through; [None] is a panic. *)
Definition Run (A : Type) : Type := list Event -> option (A * list Event).

Definition ret {A} (a : A) : Run A := fun tr => Some (a, tr).

Definition bind {A B} (c : Run A) (k : A -> Run B) : Run B :=
  fun tr => match c tr with Some (a, tr') => k a tr' | None => None end.

Definition emit (e : Event) : Run unit := fun tr => Some (tt, (tr ++ [e])%list).

(** A buffer operation applied to the buffer [b]. *)
Definition on_buf (op : BufOp) (b : string) : Run string :=
  fun tr => match op b with Some b' => Some (b', tr) | None => None end.

Notation "x <- c ;; k" := (bind c (fun x => k))
  (at level 61, c at next level, right associativity).
Notation "' pat <- c ;; k" := (bind c (fun x => match x with pat => k end))
  (at level 61, pat pattern, c at next level, right associativity).

(** [time.Now()], when the clock shows [clock]. *)
Definition time_Now (clock : Time) : Run Time :=
  _ <- emit EvNow ;; ret clock.

(** [runtime.Caller(skip)]: on failure the results are zero values. *)
Definition runtime_Caller (st : Stack) (skip : Z) : Run (Z * string * Z * bool) :=
  _ <- emit (EvCaller skip) ;;
  ret (match st skip with
       | Some f => (fr_pc f, fr_file f, fr_line f, true)
       | None => (0, "", 0, false)
       end).

Definition runtime_FuncForPC_Name (pc : Z) : Run string :=
  _ <- emit (EvFuncForPC pc) ;; ret (funcName pc).

Definition fmt_Sprint (v : list any) : Run string :=
  _ <- emit (EvSprint v) ;; ret (Sprint v).

(** The error a writer answers [Write(p)] with; [io.Discard] drops the
    bytes and reports none. *)
Definition answer (w : Writer) (p : string) : error :=
  match w with Discard => None | Sink id => sink_write id p end.

(** [w.Write(p)] *)
Definition Write (w : Writer) (p : string) : Run error :=
  _ <- emit (EvWrite w p) ;; ret (answer w p).

(** ** [Output]

    [st] is the stack seen from [Output] and [clock] the instant its call of
    [time.Now] returns.  A call that runs alone finds the mutex free at
    both [Lock]s; the mutex appears in the interleaving semantics below. *)

(** The statements from [l.buf = l.buf[:0]] to the conditional append of
    the newline: the line accumulated in [l.buf] before it is wrapped. *)
Definition accumulate (l : Logger) (t : Time) (file : string) (line : Z)
    (s : string) : Run Logger :=
  let l := set_buf l "" in
  b <- on_buf (formatHeader l t file line) (buf l) ;;
  let l := set_buf l b in
  let l := set_buf l (buf l ++ s) in
  let l := if needs_newline s then set_buf l (buf l ++ nl) else l in
  ret l.

(** The three branches on [functionName] and [err], which wrap the
    accumulated line alike. *)
Definition wrap (functionName color : string) (err : error) (l : Logger)
  : Logger :=
  if String.eqb functionName "github.com/perfectogo/log.Error" then
    match err with
    | Some _ => set_buf l (color ++ "TIME: " ++ buf l ++ Reset)
    | None => set_buf l (color ++ "TIME: " ++ buf l ++ Reset)
    end
  else set_buf l (color ++ "TIME: " ++ buf l ++ Reset).

Definition Output (st : Stack) (clock : Time) (l : Logger)
    (functionName color : string) (err : error) (calldepth : Z) (s : string)
  : Run (Logger * error) :=
  now <- time_Now clock ;;
  let file := "" in
  let line := 0 in
  '(file, line) <-
     (if has (flag l) (Z.lor Lshortfile Llongfile) then
        '(_, file, line, ok) <- runtime_Caller st calldepth ;;
        if negb ok then ret ("???", 0) else ret (file, line)
      else ret (file, line)) ;;
  l <- accumulate l now file line s ;;
  let l := wrap functionName color err l in
  err <- Write (out l) (buf l) ;;
  ret (l, err).

(** ** The level functions

    [st] is the stack seen from the level function, [clock] the instant a
    call of [time.Now] returns; [std] is the package's Logger, returned as
    the call leaves it. *)

Definition getCurrentFuncName (st : Stack) : Run string :=
  '(pc, _, _, _) <- runtime_Caller st 1 ;;
  runtime_FuncForPC_Name pc.

(** [atomic.LoadInt32(&std.isDiscard) != 0] *)
Definition discarding (std : Logger) : bool := negb (isDiscard std =? 0).

Definition Println (st : Stack) (clock : Time) (std : Logger) (v : list any)
  : Run Logger :=
  '(pc, filename, line, _) <- runtime_Caller st 1 ;;
  let fn := fun _ : Z =>
    '(pc, _, _, _) <- runtime_Caller (enter self_fn st) 1 ;;
    runtime_FuncForPC_Name pc in
  fnName <- getCurrentFuncName (enter self_getCurrentFuncName st) ;;
  let color := Green in
  if discarding std then ret std else
  let color := White in
  f <- fn pc ;;
  m <- fmt_Sprint v ;;
  '(std, _) <- Output (enter self_Output st) clock std fnName color None 2
     (nl ++ "PATH:" ++ ch tab ++ filename ++ nl ++ "FUNCTION: " ++ f ++ nl
      ++ "LOG LINE: " ++ strconv_Itoa line ++ color ++ nl ++ "INFO: " ++ m
      ++ Reset) ;;
  ret std.

Definition Info (st : Stack) (clock : Time) (std : Logger) (v : list any)
  : Run Logger :=
  fnName <- getCurrentFuncName (enter self_getCurrentFuncName st) ;;
  let color := Blue in
  '(_, filename, line, _) <- runtime_Caller st 1 ;;
  if discarding std then ret std else
  m <- fmt_Sprint v ;;
  '(std, _) <- Output (enter self_Output st) clock std fnName color None 2
     (nl ++ ch tab ++ "PATH: " ++ filename ++ nl ++ ch tab ++ "LOG LINE: "
      ++ strconv_Itoa line ++ nl ++ ch tab ++ "INFO: " ++ color ++ m
      ++ Reset) ;;
  ret std.

(** The body [Error] passes to [Output]; [tail] is the text after
    ["ERROR: "].  [fmt.Sprint(msg)] of the string [msg] is [msg]. *)
Definition Error_body (filename : string) (line : Z) (color msg tail : string)
  : string :=
  nl ++ ch tab ++ "PATH: " ++ filename ++ nl ++ ch tab ++ "LOG LINE: "
  ++ strconv_Itoa line ++ color ++ nl ++ ch tab ++ "MESSAGE: " ++ msg
  ++ nl ++ ch tab ++ "ERROR: " ++ tail ++ Reset.

Definition Error (st : Stack) (clock : Time) (std : Logger) (msg : string)
    (err : error) : Run Logger :=
  '(_, filename, line, _) <- runtime_Caller st 1 ;;
  fnName <- getCurrentFuncName (enter self_getCurrentFuncName st) ;;
  let color := Green in
  if discarding std then ret std else
  match err with
  | Some e =>
      let color := Red in
      '(std, _) <- Output (enter self_Output st) clock std fnName color err 2
         (Error_body filename line color msg (Error_text e)) ;;
      ret std
  | None =>
      '(std, _) <- Output (enter self_Output st) clock std fnName color err 2
         (Error_body filename line color msg "NO ERROR") ;;
      ret std
  end.

Definition Warning (st : Stack) (clock : Time) (std : Logger) (v : list any)
  : Run Logger :=
  '(_, filename, line, _) <- runtime_Caller st 1 ;;
  fnName <- getCurrentFuncName (enter self_getCurrentFuncName st) ;;
  let color := Yellow in
  if discarding std then ret std else
  m <- fmt_Sprint v ;;
  '(std, _) <- Output (enter self_Output st) clock std fnName color None 2
     (nl ++ "WARNING LOG" ++ nl ++ ch tab ++ "PATH: " ++ filename ++ nl
      ++ ch tab ++ "LOG LINE: " ++ strconv_Itoa line ++ nl ++ ch tab
      ++ "WARNING: " ++ color ++ m ++ Reset) ;;
  ret std.

(** ** The example program

    [main] calls the level functions from the lines 11 to 15 of its file.
    [st] is the stack seen from [main]; [t1] to [t5] are the instants the
    five calls of [time.Now] return. *)

Section Main.

(** A string passed as an operand of type [any]. *)
Variable box : string -> any.

(** The frames of the level functions when they are the running function. *)
Variables self_Println self_Error self_Info self_Warning : Frame.

(** The stack while the statement on line [n] of the running function is
    executed. *)
Definition at_line (st : Stack) (n : Z) : Stack :=
  fun k =>
    if k =? 0 then
      match st 0 with
      | Some f => Some (mkFrame (fr_pc f) (fr_file f) n)
      | None => None
      end
    else st k.

Definition main (st : Stack) (t1 t2 t3 t4 t5 : Time) (std : Logger)
  : Run Logger :=
  let err := Some (mkError "Xato") in
  std <- Println (enter self_Println (at_line st 11)) t1 std
           [box "Salom hammaga"] ;;
  std <- Error (enter self_Error (at_line st 12)) t2 std "shu joyda" err ;;
  std <- Error (enter self_Error (at_line st 13)) t3 std "Color" None ;;
  std <- Info (enter self_Info (at_line st 14)) t4 std
           [box "Salom Mani Zo'r narsam bor"] ;;
  std <- Warning (enter self_Warning (at_line st 15)) t5 std
           [box "Shu yerni qarab ketish yodizdan chiqamsin"] ;;
  ret std.

End Main.

(** ** Notions the statements use *)

(** The file and line [Output] hands to [formatHeader]. *)
Definition call_site (st : Stack) (l : Logger) (calldepth : Z) : string * Z :=
  if has (flag l) (Z.lor Lshortfile Llongfile) then
    match st calldepth with
    | Some f => (fr_file f, fr_line f)
    | None => ("???", 0)
    end
  else ("", 0).

(** The calls of [Write] in a record of calls, in order. *)
Definition writes (tr : list Event) : list (Writer * string) :=
  flat_map (fun e => match e with EvWrite w p => [(w, p)] | _ => [] end) tr.

(** A record that holds captures of caller metadata and nothing else. *)
Definition capture_only (tr : list Event) : bool :=
  forallb (fun e => match e with
                    | EvCaller _ | EvFuncForPC _ => true
                    | _ => false
                    end) tr.

(** The depths [runtime.Caller] is asked for in a record of calls. *)
Definition captures (tr : list Event) : list Z :=
  flat_map (fun e => match e with EvCaller k => [k] | _ => [] end) tr.

(** The line [Output] writes around the header [h] and the message [s]. *)
Definition line_bytes (color h s : string) : string :=
  color ++ "TIME: " ++ (h ++ s ++ (if needs_newline s then nl else ""))
  ++ Reset.

(** The file and line a level function gets from [runtime.Caller(1)], and
    the program counter [runtime.Caller(1)] reports to a function that the
    level function calls. *)
Definition caller_seen (st : Stack) : string * Z :=
  match st 1 with Some f => (fr_file f, fr_line f) | None => ("", 0) end.

Definition own_pc (st : Stack) : Z :=
  match st 0 with Some f => fr_pc f | None => 0 end.

(** The messages [Println], [Info] and [Warning] pass to [Output], for the
    file name [filename], the line [line], the function name [f] and the
    text [m] of the operands. *)
Definition Println_body (filename : string) (line : Z) (f m : string)
  : string :=
  nl ++ "PATH:" ++ ch tab ++ filename ++ nl ++ "FUNCTION: " ++ f ++ nl
  ++ "LOG LINE: " ++ strconv_Itoa line ++ White ++ nl ++ "INFO: " ++ m
  ++ Reset.

Definition Info_body (filename : string) (line : Z) (m : string) : string :=
  nl ++ ch tab ++ "PATH: " ++ filename ++ nl ++ ch tab ++ "LOG LINE: "
  ++ strconv_Itoa line ++ nl ++ ch tab ++ "INFO: " ++ Blue ++ m ++ Reset.

Definition Warning_body (filename : string) (line : Z) (m : string) : string :=
  nl ++ "WARNING LOG" ++ nl ++ ch tab ++ "PATH: " ++ filename ++ nl
  ++ ch tab ++ "LOG LINE: " ++ strconv_Itoa line ++ nl ++ ch tab
  ++ "WARNING: " ++ Yellow ++ m ++ Reset.

(** The calls [Output] makes when a level function calls it. *)
Definition Output_events (std : Logger) (p : string) : list Event :=
  ([EvNow]
   ++ (if has (flag std) (Z.lor Lshortfile Llongfile) then [EvCaller 2]
       else [])
   ++ [EvWrite (out std) p])%list.

(** The four level functions at once, when the Logger is not discarding:
    each writes the line of its color around the header [h] and its
    message for the file [file] and the line [line]. *)
Definition level_lines (st : Stack) (clock : Time) (std : Logger)
    (v : list any) (msg : string) (err : error) (tr : list Event)
    (h file : string) (line : Z) : Prop :=
  let ecolor := match err with Some _ => Red | None => Green end in
  let etail := match err with Some e => Error_text e | None => "NO ERROR" end in
  (exists evs,
      let p := line_bytes White h
                 (Println_body file line (funcName (own_pc st)) (Sprint v)) in
      Println st clock std v tr = Some (set_buf std p, (tr ++ evs)%list)
      /\ writes evs = [(out std, p)])
  /\ (exists evs,
      let p := line_bytes Blue h (Info_body file line (Sprint v)) in
      Info st clock std v tr = Some (set_buf std p, (tr ++ evs)%list)
      /\ writes evs = [(out std, p)])
  /\ (exists evs,
      let p := line_bytes ecolor h (Error_body file line ecolor msg etail) in
      Error st clock std msg err tr = Some (set_buf std p, (tr ++ evs)%list)
      /\ writes evs = [(out std, p)])
  /\ (exists evs,
      let p := line_bytes Yellow h (Warning_body file line (Sprint v)) in
      Warning st clock std v tr = Some (set_buf std p, (tr ++ evs)%list)
      /\ writes evs = [(out std, p)]).

(** A level function returns; of the Logger it changes the buffer at most;
    and it writes nothing when the Logger is discarding and, otherwise,
    exactly the bytes it leaves in the buffer. *)
Definition level_effect (std : Logger) (tr : list Event)
    (r : option (Logger * list Event)) : Prop :=
  exists (std' : Logger) (evs : list Event),
    r = Some (std', (tr ++ evs)%list)
    /\ prefix std' = prefix std /\ flag std' = flag std
    /\ out std' = out std /\ isDiscard std' = isDiscard std
    /\ writes evs = (if discarding std then [] else [(out std, buf std')])
    /\ (discarding std = true -> std' = std).

(** ** Concurrent calls of [Output] on one Logger

    Each call runs the statements of [Output] one at a time; the steps of
    different calls interleave in any order.  The calls share the mutex,
    the buffer [l.buf] and the sink; [Output] assigns no other field of the
    Logger.  [Write] hands the sink the bytes of [l.buf] one by one, reading
    the shared buffer as it goes. *)

(** The arguments of a call and what it finds around it: the stack it runs
    on and the instant its [time.Now] returns. *)
Record Call : Type := mkCall {
  c_stack : Stack;
  c_clock : Time;
  c_functionName : string;
  c_color : string;
  c_err : error;
  c_calldepth : Z;
  c_s : string
}.

(** The statement a call is about to run. *)
Inductive Pc : Type :=
| PNow          (* now := time.Now() *)
| PLock         (* l.mu.Lock() *)
| PFlag         (* if l.flag&(Lshortfile|Llongfile) != 0 *)
| PUnlock1      (* l.mu.Unlock() *)
| PCaller       (* runtime.Caller(calldepth), and the sentinel *)
| PLock2        (* l.mu.Lock() *)
| PReset        (* l.buf = l.buf[:0] *)
| PHeader       (* l.formatHeader(&l.buf, now, file, line) *)
| PAppend       (* l.buf = append(l.buf, s...) *)
| PNewline      (* the conditional append of the newline *)
| PWrap         (* l.buf = []byte(color + "TIME: " + ... + Reset) *)
| PWrite (k : nat) (* l.out.Write(l.buf), k bytes handed over *)
| PUnlock2      (* the deferred l.mu.Unlock() *)
| PDone.

(** The local variables [file] and [line] of a call, and where it is. *)
Record Local : Type := mkLocal {
  lo_pc : Pc;
  lo_file : string;
  lo_line : Z
}.

(** What the calls share: the holder of [l.mu], the bytes of [l.buf], and
    the bytes the sink has received. *)
Record Shared : Type := mkShared {
  sh_mu : option nat;
  sh_buf : string;
  sh_sink : string
}.

Definition goto (p : Pc) (lo : Local) : Local :=
  mkLocal p (lo_file lo) (lo_line lo).
Definition set_mu (sh : Shared) (m : option nat) : Shared :=
  mkShared m (sh_buf sh) (sh_sink sh).
Definition set_sbuf (sh : Shared) (b : string) : Shared :=
  mkShared (sh_mu sh) b (sh_sink sh).
Definition set_sink (sh : Shared) (k : string) : Shared :=
  mkShared (sh_mu sh) (sh_buf sh) k.

(** One statement of call [i]; [None] when it is blocked on the mutex or
    has returned. *)
Definition thread_step (l : Logger) (i : nat) (c : Call) (sh : Shared)
    (lo : Local) : option (Shared * Local) :=
  match lo_pc lo with
  | PNow => Some (sh, goto PLock lo)
  | PLock =>
      match sh_mu sh with
      | None => Some (set_mu sh (Some i), goto PFlag lo)
      | Some _ => None
      end
  | PFlag =>
      Some (sh, goto (if has (flag l) (Z.lor Lshortfile Llongfile)
                      then PUnlock1 else PReset) lo)
  | PUnlock1 => Some (set_mu sh None, goto PCaller lo)
  | PCaller =>
      Some (sh, match c_stack c (c_calldepth c) with
                | Some f => mkLocal PLock2 (fr_file f) (fr_line f)
                | None => mkLocal PLock2 "???" 0
                end)
  | PLock2 =>
      match sh_mu sh with
      | None => Some (set_mu sh (Some i), goto PReset lo)
      | Some _ => None
      end
  | PReset => Some (set_sbuf sh "", goto PHeader lo)
  | PHeader =>
      match formatHeader l (c_clock c) (lo_file lo) (lo_line lo) (sh_buf sh)
      with
      | Some b => Some (set_sbuf sh b, goto PAppend lo)
      | None => None
      end
  | PAppend => Some (set_sbuf sh (sh_buf sh ++ c_s c), goto PNewline lo)
  | PNewline =>
      Some (if needs_newline (c_s c) then set_sbuf sh (sh_buf sh ++ nl) else sh,
            goto PWrap lo)
  | PWrap =>
      Some (set_sbuf sh
              (buf (wrap (c_functionName c) (c_color c) (c_err c)
                      (set_buf l (sh_buf sh)))),
            goto (PWrite 0) lo)
  | PWrite k =>
      match get k (sh_buf sh) with
      | Some b => Some (set_sink sh (sh_sink sh ++ ch b), goto (PWrite (S k)) lo)
      | None => Some (sh, goto PUnlock2 lo)
      end
  | PUnlock2 => Some (set_mu sh None, goto PDone lo)
  | PDone => None
  end.

(** The calls numbered below [N], each at its own statement. *)
Record State : Type := mkState {
  shared : Shared;
  locals : nat -> Local
}.

Definition update (f : nat -> Local) (i : nat) (x : Local) : nat -> Local :=
  fun j => if (j =? i)%nat then x else f j.

Definition step_thread (l : Logger) (calls : nat -> Call) (i : nat)
    (sg : State) : option State :=
  match thread_step l i (calls i) (shared sg) (locals sg i) with
  | Some (sh, lo) => Some (mkState sh (update (locals sg) i lo))
  | None => None
  end.

(** All calls at their first statement, the mutex free, nothing written;
    [l.buf] holds what the last call left in it. *)
Definition init (l : Logger) : State :=
  mkState (mkShared None (buf l) "") (fun _ => mkLocal PNow "" 0).

(** The states an interleaving of [N] calls reaches from [sg]. *)
Inductive steps (l : Logger) (calls : nat -> Call) (N : nat) (sg : State)
  : State -> Prop :=
| steps_refl : steps l calls N sg sg
| steps_step (sg1 sg2 : State) (i : nat) :
    steps l calls N sg sg1 -> (i < N)%nat ->
    step_thread l calls i sg1 = Some sg2 ->
    steps l calls N sg sg2.

(** The calls run as a scheduler picks them: a call picked while it is
    blocked, or after it has returned, does not move. *)
Fixpoint run (l : Logger) (calls : nat -> Call) (schedule : list nat)
    (sg : State) : State :=
  match schedule with
  | [] => sg
  | i :: schedule' =>
      match step_thread l calls i sg with
      | Some sg' => run l calls schedule' sg'
      | None => run l calls schedule' sg
      end
  end.

(** The statements that read or assign [l.buf]. *)
Definition touches_buf (p : Pc) : bool :=
  match p with
  | PReset | PHeader | PAppend | PNewline | PWrap | PWrite _ => true
  | _ => false
  end.

Definition all_done (N : nat) (sg : State) : Prop :=
  forall i : nat, (i < N)%nat -> lo_pc (locals sg i) = PDone.

(** The strings of a list, one after the other. *)
Definition flatten (ls : list string) : string := fold_right append "" ls.

(** The bytes a call writes when it runs alone: those of the [Write] calls
    of [Output]. *)
Definition written_alone (l : Logger) (c : Call) : string :=
  match Output (c_stack c) (c_clock c) l (c_functionName c) (c_color c)
          (c_err c) (c_calldepth c) (c_s c) [] with
  | Some (_, tr) => flatten (map snd (writes tr))
  | None => ""
  end.

(** *** The invariant of the interleavings *)

(** The header [formatHeader] writes into an empty buffer. *)
Definition header_of (l : Logger) (t : Time) (file : string) (line : Z)
  : string :=
  match formatHeader l t file line "" with Some h => h | None => "" end.

(** The header of a line logged from line [n] of the file of frame [f]. *)
Definition main_header (std : Logger) (t : Time) (f : Frame) (n : Z)
  : string :=
  header_of std t
    (if has (flag std) (Z.lor Lshortfile Llongfile) then fr_file f else "")
    (if has (flag std) (Z.lor Lshortfile Llongfile) then n else 0).

Definition site_of (l : Logger) (c : Call) : string * Z :=
  call_site (c_stack c) l (c_calldepth c).

(** The header, the accumulated line and the wrapped line of a call. *)
Definition hdr (l : Logger) (c : Call) : string :=
  header_of l (c_clock c) (fst (site_of l c)) (snd (site_of l c)).
Definition acc_of (l : Logger) (c : Call) : string :=
  hdr l c ++ c_s c ++ (if needs_newline (c_s c) then nl else "").
Definition line_of (l : Logger) (c : Call) : string :=
  c_color c ++ "TIME: " ++ acc_of l c ++ Reset.

(** The statements a call runs with the mutex held. *)
Definition holds (p : Pc) : bool :=
  match p with
  | PFlag | PUnlock1 | PReset | PHeader | PAppend | PNewline | PWrap
  | PWrite _ | PUnlock2 => true
  | _ => false
  end.

(** The statements after the write. *)
Definition finished (p : Pc) : bool :=
  match p with PUnlock2 | PDone => true | _ => false end.

(** What call [i] knows at each statement: whether it holds the mutex,
    and, while it holds it, what the buffer contains. *)
Definition local_ok (l : Logger) (i : nat) (c : Call) (lo : Local)
    (sh : Shared) : Prop :=
  (holds (lo_pc lo) = true <-> sh_mu sh = Some i)
  /\ match lo_pc lo with
     | PNow | PLock | PFlag => lo_file lo = "" /\ lo_line lo = 0
     | PUnlock1 | PCaller =>
         has (flag l) (Z.lor Lshortfile Llongfile) = true
     | PLock2 | PReset => (lo_file lo, lo_line lo) = site_of l c
     | PHeader => (lo_file lo, lo_line lo) = site_of l c /\ sh_buf sh = ""
     | PAppend => sh_buf sh = hdr l c
     | PNewline => sh_buf sh = hdr l c ++ c_s c
     | PWrap => sh_buf sh = acc_of l c
     | PWrite k =>
         sh_buf sh = line_of l c /\ (k <= length (line_of l c))%nat
     | PUnlock2 | PDone => True
     end.

(** The bytes of the write in progress, if there is one. *)
Definition partial (l : Logger) (calls : nat -> Call) (sg : State) : string :=
  match sh_mu (shared sg) with
  | Some i =>
      match lo_pc (locals sg i) with
      | PWrite k => substring 0 k (line_of l (calls i))
      | _ => ""
      end
  | None => ""
  end.

Definition Inv (l : Logger) (calls : nat -> Call) (N : nat) (sg : State)
  : Prop :=
  (forall i, sh_mu (shared sg) = Some i -> (i < N)%nat)
  /\ (forall i, (i < N)%nat ->
        local_ok l i (calls i) (locals sg i) (shared sg))
  /\ exists order : list nat,
       NoDup order
       /\ (forall i, In i order <->
                     (i < N)%nat /\ finished (lo_pc (locals sg i)) = true)
       /\ sh_sink (shared sg)
          = flatten (map (fun i => line_of l (calls i)) order)
            ++ partial l calls sg.

(** The number of statements a call has left, at most, given the length
    [len] of its line. *)
Definition rank (len : nat) (p : Pc) : nat :=
  match p with
  | PNow => len + 13
  | PLock => len + 12
  | PFlag => len + 11
  | PUnlock1 => len + 10
  | PCaller => len + 9
  | PLock2 => len + 8
  | PReset => len + 7
  | PHeader => len + 6
  | PAppend => len + 5
  | PNewline => len + 4
  | PWrap => len + 3
  | PWrite k => (len - k) + 2
  | PUnlock2 => 1
  | PDone => 0
  end.

Definition measure (l : Logger) (calls : nat -> Call) (N : nat) (sg : State)
  : nat :=
  list_sum (map (fun i => rank (length (line_of l (calls i)))
                            (lo_pc (locals sg i))) (seq 0 N)).

(** * Facts *)

(** Facts that do not speak of the run-time leave it out of their proofs. *)
Ltac forget_runtime :=
  try clear Green; try clear Red; try clear Yellow; try clear Blue;
  try clear White; try clear Sprint; try clear funcName;
  try clear self_Output; try clear self_getCurrentFuncName;
  try clear self_fn; try clear sink_write.

Example fixed_2024 : fixed 4 2024 = "2024". Proof. reflexivity. Qed.
Example fixed_5 : fixed 2 5 = "05". Proof. reflexivity. Qed.
Example decimal_0 : decimal 0 = "0". Proof. reflexivity. Qed.
Example decimal_1203 : decimal 1203 = "1203". Proof. reflexivity. Qed.
Example decimal_max : decimal (2^63 - 1) = "9223372036854775807".
Proof. reflexivity. Qed.

(** ** Lemmas on strings and buffer operations *)

Lemma append_nil_r (s : string) : s ++ "" = s.
Proof. induction s as [|c s IH]; simpl; [reflexivity | now rewrite IH]. Qed.

Lemma append_assoc (a b c : string) : (a ++ b) ++ c = a ++ b ++ c.
Proof. induction a as [|x a IH]; simpl; [reflexivity | now rewrite IH]. Qed.

Lemma append_length (a b : string) :
  length (a ++ b) = (length a + length b)%nat.
Proof. induction a as [|x a IH]; simpl; [reflexivity | now rewrite IH]. Qed.

Lemma fixed_length (w : nat) (n : Z) : length (fixed w n) = w.
Proof.
  revert n; induction w as [|w IH]; intro n; simpl; [reflexivity|].
  rewrite append_length, IH; simpl; lia.
Qed.

Lemma byte_digit (d : Z) : 0 <= d <= 9 -> byte (48 + d) = digit d.
Proof.
  intro H. unfold byte, digit. rewrite Z.mod_small by lia. reflexivity.
Qed.

Lemma int64_small (z : Z) : - 2^63 <= z < 2^63 -> int64 z = z.
Proof. intro H. unfold int64. rewrite Z.mod_small; lia. Qed.

Lemma int64_range (z : Z) : - 2^63 <= int64 z < 2^63.
Proof.
  unfold int64. pose proof (Z.mod_pos_bound (z + 2^63) (2^64)). lia.
Qed.

(** The digit the loop of [itoa] stores for a non-negative [i]. *)
Lemma itoa_digit (i : Z) :
  0 <= i -> byte (48 + i - Z.quot i 10 * 10) = digit (i mod 10).
Proof.
  intro H. rewrite Z.quot_div_nonneg by lia.
  replace (48 + i - i / 10 * 10) with (48 + i mod 10)
    by (pose proof (Z.div_mod i 10); lia).
  apply byte_digit. pose proof (Z.mod_pos_bound i 10). lia.
Qed.

(** With a width, [itoa] writes the zero-padded numeral of that width. *)
Lemma itoa_loop_fixed (w : nat) :
  forall (slots : nat) (i : Z) (acc : string),
    (1 <= w <= slots)%nat -> 0 <= i < 10 ^ Z.of_nat w ->
    itoa_loop slots i (Z.of_nat w) acc = Some (fixed w i ++ acc).
Proof.
  induction w as [|w IH]; intros slots i acc Hw Hi; [lia|].
  destruct slots as [|slots]; [lia|].
  destruct w as [|w].
  - change (10 ^ Z.of_nat 1) with 10 in Hi.
    cbn [itoa_loop fixed append]. change (1 <? Z.of_nat 1) with false.
    replace (10 <=? i) with false by (symmetry; apply Z.leb_gt; lia).
    cbn [orb]. rewrite Z.mod_small by lia.
    now rewrite byte_digit by lia.
  - cbn [itoa_loop].
    replace (1 <? Z.of_nat (S (S w))) with true
      by (symmetry; apply Z.ltb_lt; lia).
    rewrite orb_true_r.
    replace (Z.of_nat (S (S w)) - 1) with (Z.of_nat (S w)) by lia.
    rewrite IH.
    + rewrite itoa_digit by lia. rewrite Z.quot_div_nonneg by lia.
      cbn [fixed]. unfold ch. now rewrite !append_assoc.
    + lia.
    + rewrite Z.quot_div_nonneg by lia.
      rewrite Nat2Z.inj_succ, Z.pow_succ_r in Hi by lia.
      split; [apply Z.div_pos; lia|].
      apply Z.div_lt_upper_bound; lia.
Qed.

(** Without a width, [itoa] writes the numeral without padding. *)
Lemma itoa_loop_decimal (k : nat) :
  forall (slots fuel : nat) (i wid : Z) (acc : string),
    (k < slots)%nat -> (k <= fuel)%nat -> wid <= 1 ->
    0 <= i < 10 ^ Z.of_nat (S k) ->
    itoa_loop slots i wid acc = Some (decimal_fuel fuel i ++ acc).
Proof.
  induction k as [|k IH]; intros slots fuel i wid acc Hs Hf Hw Hi.
  - destruct slots as [|slots]; [lia|].
    change (10 ^ Z.of_nat 1) with 10 in Hi. cbn [itoa_loop].
    replace (10 <=? i) with false by (symmetry; apply Z.leb_gt; lia).
    replace (1 <? wid) with false by (symmetry; apply Z.ltb_ge; lia).
    cbn [orb]. rewrite byte_digit by lia.
    destruct fuel; cbn [decimal_fuel];
      [|replace (i <? 10) with true by (symmetry; apply Z.ltb_lt; lia)];
      reflexivity.
  - destruct slots as [|slots]; [lia|].
    destruct fuel as [|fuel]; [lia|].
    cbn [itoa_loop decimal_fuel].
    replace (1 <? wid) with false by (symmetry; apply Z.ltb_ge; lia).
    rewrite orb_false_r.
    destruct (Z.leb_spec 10 i) as [Hge|Hlt].
    + replace (i <? 10) with false by (symmetry; apply Z.ltb_ge; lia).
      rewrite (IH slots fuel); try lia.
      * rewrite itoa_digit by lia. rewrite Z.quot_div_nonneg by lia.
        unfold ch. now rewrite !append_assoc.
      * rewrite Z.quot_div_nonneg by lia.
        rewrite Nat2Z.inj_succ, Z.pow_succ_r in Hi by lia.
        split; [apply Z.div_pos; lia|].
        apply Z.div_lt_upper_bound; lia.
    + replace (i <? 10) with true by (symmetry; apply Z.ltb_lt; lia).
      replace (10 <=? i) with false by (symmetry; apply Z.leb_gt; lia).
      now rewrite byte_digit by lia.
Qed.

(** The array of twenty bytes is never overrun: every [int] has at most
    nineteen digits, and the widths in use are at most six. *)
Lemma itoa_loop_defined (slots : nat) :
  forall (i wid : Z) (acc : string),
    (1 <= slots)%nat -> i < 10 ^ Z.of_nat slots -> wid <= Z.of_nat slots ->
    exists d, itoa_loop slots i wid acc = Some (d ++ acc).
Proof.
  induction slots as [|n IH]; intros i wid acc Hs Hi Hw; [lia|].
  cbn [itoa_loop].
  destruct ((10 <=? i) || (1 <? wid)) eqn:Hc.
  - destruct n as [|n].
    + change (10 ^ Z.of_nat 1) with 10 in Hi.
      apply orb_true_iff in Hc as [Hc|Hc];
        [apply Z.leb_le in Hc | apply Z.ltb_lt in Hc]; lia.
    + destruct (IH (Z.quot i 10) (wid - 1)
                  (String (byte (48 + i - Z.quot i 10 * 10)) acc))
        as [d Hd]; try lia.
      * rewrite Nat2Z.inj_succ, Z.pow_succ_r in Hi by lia.
        destruct (Z.le_gt_cases 0 i) as [Hpos|Hneg].
        -- rewrite Z.quot_div_nonneg by lia.
           apply Z.div_lt_upper_bound; lia.
        -- pose proof (Z.quot_opp_l i 10 ltac:(lia)) as Hq.
           assert (0 <= Z.quot (- i) 10) by (apply Z.quot_pos; lia).
           assert (0 < 10 ^ Z.of_nat (S n)) by (apply Z.pow_pos_nonneg; lia).
           lia.
      * exists (d ++ ch (byte (48 + i - Z.quot i 10 * 10))).
        rewrite Hd. unfold ch. now rewrite append_assoc.
  - exists (ch (byte (48 + i))). reflexivity.
Qed.

Lemma itoa_defined (i wid : Z) (b : string) :
  wid <= 20 -> exists d, itoa i wid b = Some (b ++ d).
Proof.
  intro Hw. unfold itoa.
  destruct (itoa_loop_defined 20 (int64 i) wid "") as [d Hd]; try lia.
  - pose proof (int64_range i).
    change (10 ^ Z.of_nat 20) with 100000000000000000000.
    change (2 ^ 63) with 9223372036854775808 in *. lia.
  - rewrite Hd. exists d. now rewrite append_nil_r.
Qed.

Lemma itoa_fixed (w : nat) (i : Z) (b : string) :
  (1 <= w <= 18)%nat -> 0 <= i < 10 ^ Z.of_nat w ->
  itoa i (Z.of_nat w) b = Some (b ++ fixed w i).
Proof.
  intros Hw Hi. unfold itoa.
  assert (10 ^ Z.of_nat w <= 10 ^ 18) by (apply Z.pow_le_mono_r; lia).
  rewrite int64_small
    by (change (2 ^ 63) with 9223372036854775808;
        change (10 ^ 18) with 1000000000000000000 in *; lia).
  rewrite itoa_loop_fixed by lia. now rewrite append_nil_r.
Qed.

Lemma itoa_decimal (i wid : Z) (b : string) :
  wid <= 1 -> 0 <= i < 2 ^ 63 ->
  itoa i wid b = Some (b ++ decimal i).
Proof.
  intros Hw Hi. unfold itoa, decimal.
  rewrite int64_small by lia.
  assert (Hlog : 0 <= Z.log2 i < 63).
  { split; [apply Z.log2_nonneg|].
    destruct (Z.eq_dec i 0) as [->|Hne]; [reflexivity|].
    apply Z.log2_lt_pow2; lia. }
  assert (Hpow : i < 10 ^ Z.of_nat (S (Z.to_nat (Z.log2 i)))).
  { rewrite Nat2Z.inj_succ, Z2Nat.id by lia.
    destruct (Z.eq_dec i 0) as [->|Hne]; [reflexivity|].
    pose proof (Z.log2_spec i ltac:(lia)) as [_ Hup].
    assert (2 ^ Z.succ (Z.log2 i) <= 10 ^ Z.succ (Z.log2 i))
      by (apply Z.pow_le_mono_l; lia).
    lia. }
  rewrite (itoa_loop_decimal (Nat.min 18 (Z.to_nat (Z.log2 i))) 20
             (Z.to_nat (Z.log2 i))); try lia.
  - now rewrite append_nil_r.
  - destruct (Nat.min_spec 18 (Z.to_nat (Z.log2 i))) as [[_ ->]|[_ ->]].
    + change (10 ^ Z.of_nat 19) with 10000000000000000000.
      change (2 ^ 63) with 9223372036854775808 in Hi. lia.
    + lia.
Qed.

(** ** The calendar fields lie in their ranges *)

Lemma civil_range (z : Z) :
  let '(y, m, d) := civil z in 1 <= m <= 12 /\ 1 <= d <= 31.
Proof.
  forget_runtime.
  unfold civil.
  set (z' := z + 719468).
  set (era := z' / 146097).
  set (doe := z' - era * 146097).
  assert (Hdoe : 0 <= doe < 146097).
  { subst doe era. pose proof (Z.div_mod z' 146097).
    pose proof (Z.mod_pos_bound z' 146097). lia. }
  clearbody doe. clear z z' era.
  set (yoe := (doe - doe / 1460 + doe / 36524 - doe / 146096) / 365).
  set (doy := doe - (365 * yoe + yoe / 4 - yoe / 100)).
  assert (Hdoy : 0 <= doy <= 365).
  { subst doy yoe. Z.div_mod_to_equations. lia. }
  clearbody doy. clear Hdoe doe yoe.
  set (mp := (5 * doy + 2) / 153).
  assert (Hmp : 0 <= mp <= 11) by (subst mp; Z.div_mod_to_equations; lia).
  assert (Hd : 1 <= doy - (153 * mp + 2) / 5 + 1 <= 31)
    by (subst mp; Z.div_mod_to_equations; lia).
  clearbody mp.
  destruct (mp <? 10) eqn:E;
    [apply Z.ltb_lt in E | apply Z.ltb_ge in E]; lia.
Qed.

Lemma Clock_range (t : Time) :
  let '(h, m, s) := Clock t in 0 <= h <= 23 /\ 0 <= m <= 59 /\ 0 <= s <= 59.
Proof.
  forget_runtime.
  unfold Clock. set (w := wallSec t). clearbody w.
  Z.div_mod_to_equations. lia.
Qed.

Lemma Nanosecond_range (t : Time) : 0 <= Nanosecond t < 1000000000.
Proof.
  unfold Nanosecond. pose proof (nsec_ok t) as H.
  apply andb_true_iff in H as [H1 H2].
  apply Z.leb_le in H1. apply Z.ltb_lt in H2. lia.
Qed.

Lemma has_lor (f a b : Z) : has f (Z.lor a b) = has f a || has f b.
Proof.
  forget_runtime.
  unfold has. rewrite Z.land_lor_distr_r, <- negb_andb. f_equal.
  destruct (Z.eqb_spec (Z.land f a) 0) as [Ha|Ha];
    destruct (Z.eqb_spec (Z.land f b) 0) as [Hb|Hb]; simpl;
    [apply Z.eqb_eq | apply Z.eqb_neq ..]; rewrite Z.lor_eq_0_iff; tauto.
Qed.

Lemma itoa_4 (i : Z) (b : string) :
  0 <= i <= 9999 -> itoa i 4 b = Some (b ++ fixed 4 i).
Proof.
  forget_runtime. intro H. apply (itoa_fixed 4); [lia | simpl; lia]. Qed.

Lemma itoa_2 (i : Z) (b : string) :
  0 <= i <= 99 -> itoa i 2 b = Some (b ++ fixed 2 i).
Proof.
  forget_runtime. intro H. apply (itoa_fixed 2); [lia | simpl; lia]. Qed.

Lemma itoa_6 (i : Z) (b : string) :
  0 <= i <= 999999 -> itoa i 6 b = Some (b ++ fixed 6 i).
Proof.
  forget_runtime. intro H. apply (itoa_fixed 6); [lia | simpl; lia]. Qed.

(** The date part of [formatHeader]. *)
Lemma date_part (t : Time) (b : string) :
  0 <= year_of t <= 9999 ->
  (let '(year, month, day) := Date t in
   itoa year 4 ;; append_bytes "/" ;; itoa month 2 ;; append_bytes "/" ;;
   itoa day 2 ;; append_bytes " ")%bufop b = Some (b ++ spec_date t).
Proof.
  unfold year_of, spec_date, Date. intro Hy.
  pose proof (civil_range (wallSec t / 86400)) as Hr.
  destruct (civil (wallSec t / 86400)) as [[y m] d]. simpl in Hy.
  unfold seq_op, append_bytes.
  rewrite itoa_4, itoa_2, itoa_2 by lia.
  now rewrite !append_assoc.
Qed.

(** The time part of [formatHeader]. *)
Lemma clock_part (micro : bool) (t : Time) (b : string) :
  (let '(hour, min, sec) := Clock t in
   itoa hour 2 ;; append_bytes ":" ;; itoa min 2 ;; append_bytes ":" ;;
   itoa sec 2 ;;
   when micro (append_bytes "." ;; itoa (Z.quot (Nanosecond t) 1000) 6) ;;
   append_bytes " ")%bufop b = Some (b ++ spec_clock micro t).
Proof.
  unfold spec_clock. pose proof (Clock_range t) as Hr.
  pose proof (Nanosecond_range t) as Hn.
  destruct (Clock t) as [[h m] s0].
  unfold seq_op, append_bytes, when, skip.
  rewrite !itoa_2 by lia.
  destruct micro.
  - rewrite Z.quot_div_nonneg by lia. rewrite itoa_6.
    + now rewrite !append_assoc.
    + split; [apply Z.div_pos; lia | ].
      assert (Nanosecond t / 1000 < 1000000)
        by (apply Z.div_lt_upper_bound; lia). lia.
  - now rewrite !append_assoc.
Qed.

(** The file part of [formatHeader]. *)
Lemma file_part (path : string) (line : Z) (b : string) :
  0 <= line < 2 ^ 63 ->
  (append_bytes path ;; append_bytes ":" ;; itoa line (-1) ;;
   append_bytes ": ")%bufop b = Some (b ++ path ++ ":" ++ decimal line ++ ": ").
Proof.
  intro H. unfold seq_op, append_bytes.
  rewrite itoa_decimal by lia. now rewrite !append_assoc.
Qed.

Lemma seq_op_Some (a c : BufOp) (x y z : string) :
  a x = Some y -> c y = Some z -> (a ;; c)%bufop x = Some z.
Proof. intros Ha Hc. unfold seq_op. now rewrite Ha. Qed.

Lemma formatHeader_spec (l : Logger) (t : Time) (file : string) (line : Z)
    (b : string) :
  (has (flag l) Ldate = true -> 0 <= year_of (header_time l t) <= 9999) ->
  (has (flag l) Lshortfile || has (flag l) Llongfile = true ->
   0 <= line < 2 ^ 63) ->
  formatHeader l t file line b = Some (b ++ spec_header l t file line).
Proof.
  intros Hy Hl. unfold formatHeader, spec_header.
  cbv zeta. fold (header_time l t). fold (header_path l file).
  rewrite !has_lor.
  set (p1 := if has (flag l) Lmsgprefix then "" else prefix l).
  set (p2 := if has (flag l) Ldate then spec_date (header_time l t) else "").
  set (p3 := if has (flag l) Ltime || has (flag l) Lmicroseconds
             then spec_clock (has (flag l) Lmicroseconds) (header_time l t)
             else "").
  set (p4 := if has (flag l) Lshortfile || has (flag l) Llongfile
             then header_path l file ++ ":" ++ decimal line ++ ": " else "").
  set (p5 := if has (flag l) Lmsgprefix then prefix l else "").
  apply seq_op_Some with (y := b ++ p1);
    [|apply seq_op_Some with (y := b ++ p1 ++ p2 ++ p3);
      [|apply seq_op_Some with (y := b ++ p1 ++ p2 ++ p3 ++ p4)]].
  - subst p1. destruct (has (flag l) Lmsgprefix); cbn [negb when];
      unfold skip; [now rewrite append_nil_r | reflexivity].
  - subst p2 p3. rewrite <- (append_assoc b p1). set (b1 := b ++ p1).
    destruct (has (flag l) Ldate) eqn:Hd.
    + cbn [orb when]. eapply seq_op_Some.
      * apply date_part. now apply Hy.
      * destruct (has (flag l) Ltime || has (flag l) Lmicroseconds).
        -- cbn [when]. rewrite clock_part. now rewrite append_assoc.
        -- cbn [when]. unfold skip. now rewrite append_nil_r.
    + cbn [orb].
      destruct (has (flag l) Ltime || has (flag l) Lmicroseconds).
      * cbn [when]. unfold seq_op at 1, skip. now rewrite clock_part.
      * cbn [when]. unfold skip. now rewrite append_nil_r.
  - subst p4.
    replace (b ++ p1 ++ p2 ++ p3 ++
             (if has (flag l) Lshortfile || has (flag l) Llongfile
              then header_path l file ++ ":" ++ decimal line ++ ": " else ""))
      with ((b ++ p1 ++ p2 ++ p3) ++
            (if has (flag l) Lshortfile || has (flag l) Llongfile
             then header_path l file ++ ":" ++ decimal line ++ ": " else ""))
      by now rewrite !append_assoc.
    destruct (has (flag l) Lshortfile || has (flag l) Llongfile).
    + cbn [when]. now apply file_part, Hl.
    + cbn [when]. unfold skip. now rewrite append_nil_r.
  - subst p5. destruct (has (flag l) Lmsgprefix); cbn [when];
      unfold skip, append_bytes; now rewrite ?append_nil_r, ?append_assoc.
Qed.

(** ** Prefixes and bytes of a string *)

Lemma substring_0_0 (s : string) : substring 0 0 s = "".
Proof. now destruct s. Qed.

Lemma get_Some_lt (s : string) :
  forall (k : nat) (b : ascii), get k s = Some b -> (k < length s)%nat.
Proof.
  induction s as [|a s IH]; intros k b H; [discriminate|].
  destruct k as [|k]; simpl in *; [lia|]. apply IH in H. lia.
Qed.

Lemma get_None_ge (s : string) :
  forall k : nat, get k s = None -> (length s <= k)%nat.
Proof.
  induction s as [|a s IH]; intros k H; simpl; [lia|].
  destruct k as [|k]; simpl in *; [discriminate|]. apply IH in H. lia.
Qed.

Lemma substring_snoc (s : string) :
  forall (k : nat) (b : ascii),
    get k s = Some b -> substring 0 (S k) s = substring 0 k s ++ ch b.
Proof.
  induction s as [|a s IH]; intros k b H; [discriminate|].
  destruct k as [|k]; simpl in H.
  - injection H as ->. simpl. now rewrite substring_0_0.
  - change (substring 0 (S (S k)) (String a s))
      with (String a (substring 0 (S k) s)).
    rewrite (IH k b H). reflexivity.
Qed.

Lemma substring_all (s : string) : substring 0 (length s) s = s.
Proof. induction s as [|a s IH]; simpl; [reflexivity | now rewrite IH]. Qed.

(** ** The last byte of a string *)

Lemma string_snoc (s : string) :
  s = "" \/ exists (x : string) (c : ascii), s = x ++ ch c.
Proof.
  induction s as [|a s IH]; [now left | right].
  destruct IH as [->|(x & c & ->)].
  - now exists "", a.
  - now exists (String a x), c.
Qed.

Lemma length_snoc (x : string) (c : ascii) :
  length (x ++ ch c) = S (length x).
Proof. rewrite append_length. simpl. lia. Qed.

Lemma get_snoc (x : string) (c : ascii) :
  get (length (x ++ ch c) - 1) (x ++ ch c) = Some c.
Proof.
  rewrite length_snoc. replace (S (length x) - 1)%nat with (length x) by lia.
  induction x as [|a x IH]; [reflexivity | exact IH].
Qed.

Lemma ends_with_newline_snoc (x : string) (c : ascii) :
  ends_with_newline (x ++ ch c) = Ascii.eqb c newline.
Proof. unfold ends_with_newline. now rewrite get_snoc. Qed.

Lemma needs_newline_ends (s : string) :
  needs_newline s = negb (ends_with_newline s).
Proof.
  destruct (string_snoc s) as [->|(x & c & ->)]; [reflexivity|].
  unfold needs_newline, ends_with_newline.
  rewrite get_snoc, length_snoc. reflexivity.
Qed.

Lemma trailing_newlines_le (s : string) :
  (trailing_newlines s <= length s)%nat.
Proof.
  induction s as [|a s IH]; simpl; [lia|].
  destruct ((trailing_newlines s =? length s)%nat && Ascii.eqb a newline); lia.
Qed.

Lemma trailing_newlines_nl (x : string) :
  trailing_newlines (x ++ nl) = S (trailing_newlines x).
Proof.
  unfold nl. induction x as [|a x IH]; [reflexivity|].
  cbn [append trailing_newlines]. rewrite IH, length_snoc.
  change (S (trailing_newlines x) =? S (length x))%nat
    with (trailing_newlines x =? length x)%nat.
  now destruct ((trailing_newlines x =? length x)%nat && Ascii.eqb a newline).
Qed.

Lemma trailing_newlines_other (x : string) (c : ascii) :
  Ascii.eqb c newline = false -> trailing_newlines (x ++ ch c) = 0%nat.
Proof.
  intro Hc. induction x as [|a x IH].
  - simpl. now rewrite Hc.
  - cbn [append trailing_newlines]. rewrite IH, length_snoc. reflexivity.
Qed.

Lemma ends_with_newline_trailing (s : string) :
  ends_with_newline s = negb (trailing_newlines s =? 0)%nat.
Proof.
  destruct (string_snoc s) as [->|(x & c & ->)]; [reflexivity|].
  rewrite ends_with_newline_snoc.
  destruct (Ascii.eqb c newline) eqn:Hc.
  - apply Ascii.eqb_eq in Hc. subst c. fold nl.
    now rewrite trailing_newlines_nl.
  - now rewrite trailing_newlines_other.
Qed.

(** Bytes in front of a string that is not made of newlines only do not
    change the newlines that end it. *)
Lemma trailing_newlines_app (a s : string) :
  (trailing_newlines s < length s)%nat ->
  trailing_newlines (a ++ s) = trailing_newlines s.
Proof.
  intro H. induction a as [|c a IH]; [reflexivity|].
  cbn [append trailing_newlines]. rewrite IH, append_length.
  replace (trailing_newlines s =? length a + length s)%nat with false
    by (symmetry; apply Nat.eqb_neq; lia).
  reflexivity.
Qed.


(** ** [formatHeader] never panics and only appends *)

Lemma appends_skip : appends skip.
Proof. intro b. exists "". unfold skip. now rewrite append_nil_r. Qed.

Lemma appends_bytes (s : string) : appends (append_bytes s).
Proof. intro b. now exists s. Qed.

Lemma appends_itoa (i wid : Z) : wid <= 20 -> appends (itoa i wid).
Proof. intros H b. now apply itoa_defined. Qed.

Lemma appends_seq (a c : BufOp) : appends a -> appends c -> appends (a ;; c).
Proof.
  intros Ha Hc b. destruct (Ha b) as [d Hd]. destruct (Hc (b ++ d)) as [e He].
  exists (d ++ e). unfold seq_op. rewrite Hd, He. now rewrite append_assoc.
Qed.

Lemma appends_when (c : bool) (a : BufOp) : appends a -> appends (when c a).
Proof. intro Ha. destruct c; [exact Ha | exact appends_skip]. Qed.

Lemma formatHeader_appends (l : Logger) (t : Time) (file : string) (line : Z) :
  appends (formatHeader l t file line).
Proof.
  unfold formatHeader.
  destruct (Date (if has (flag l) LUTC then UTC t else t)) as [[y m] d].
  destruct (Clock (if has (flag l) LUTC then UTC t else t)) as [[h mi] sec].
  repeat first [ apply appends_seq | apply appends_when | apply appends_bytes
               | apply appends_itoa; lia ].
Qed.

Lemma formatHeader_defined (l : Logger) (t : Time) (file : string) (line : Z) :
  exists h, formatHeader l t file line "" = Some h.
Proof.
  destruct (formatHeader_appends l t file line "") as [d Hd]. now exists d.
Qed.

(** The file part of the header, whatever the date and time parts are. *)
Lemma formatHeader_file (l : Logger) (t : Time) (file : string) (line : Z) :
  has (flag l) (Z.lor Lshortfile Llongfile) = true ->
  0 <= line < 2 ^ 63 ->
  exists pre : string,
    formatHeader l t file line ""
    = Some (pre ++ (header_path l file ++ ":" ++ decimal line ++ ": ")
                ++ (if has (flag l) Lmsgprefix then prefix l else "")).
Proof.
  intros Hf Hl. unfold formatHeader. cbv zeta. rewrite Hf.
  fold (header_path l file).
  set (A := when (negb (has (flag l) Lmsgprefix)) (append_bytes (prefix l))).
  set (B := when (has (flag l) (Z.lor Ldate (Z.lor Ltime Lmicroseconds))) _).
  assert (HA : appends A) by (apply appends_when, appends_bytes).
  assert (HB : appends B).
  { subst B. apply appends_when.
    destruct (Date (if has (flag l) LUTC then UTC t else t)) as [[y m] d].
    destruct (Clock (if has (flag l) LUTC then UTC t else t)) as [[h mi] sec].
    repeat first [ apply appends_seq | apply appends_when | apply appends_bytes
                 | apply appends_itoa; lia ]. }
  destruct (HA "") as [a Ha]. destruct (HB ("" ++ a)) as [c Hc].
  exists (a ++ c). cbn [when].
  apply seq_op_Some with (y := "" ++ a); [exact Ha|].
  apply seq_op_Some with (y := ("" ++ a) ++ c); [exact Hc|].
  eapply seq_op_Some; [apply file_part; exact Hl|].
  destruct (has (flag l) Lmsgprefix); cbn [when]; unfold skip, append_bytes;
    cbn [append]; now rewrite ?append_nil_r, ?append_assoc.
Qed.

(** ** The loop of [Lshortfile] *)

Lemma get_app_r (a b : string) (k : nat) :
  get (length a + k) (a ++ b) = get k b.
Proof. induction a as [|c a IH]; [reflexivity | exact IH]. Qed.

Lemma substring_app_r (a b : string) (n m : nat) :
  substring (length a + n) m (a ++ b) = substring n m b.
Proof. induction a as [|c a IH]; [reflexivity | exact IH]. Qed.

Lemma no_slash_get (s : string) :
  no_slash s = true ->
  forall (k : nat) (c : ascii), get k s = Some c -> Ascii.eqb c slash = false.
Proof.
  induction s as [|a s IH]; intros Hs k c Hg; [discriminate|].
  cbn [no_slash] in Hs. apply andb_true_iff in Hs as [Ha Hs].
  destruct k as [|k]; cbn [get] in Hg.
  - injection Hg as <-. now apply negb_true_iff in Ha.
  - exact (IH Hs k c Hg).
Qed.

(** Past the last separator the loop finds nothing and steps down. *)
Lemma short_loop_step (file : string) (n : nat) :
  match get (S n) file with
  | Some c => Ascii.eqb c slash = false
  | None => True
  end ->
  short_loop file (S n) = short_loop file n.
Proof.
  intro H. cbn [short_loop]. destruct (get (S n) file) as [c|];
    [now rewrite H | reflexivity].
Qed.

(** After a directory part that is not empty, the loop stops at the last
    separator and keeps the file name. *)
Lemma short_loop_base (dir base : string) :
  dir <> "" -> no_slash base = true ->
  forall m : nat,
    (m <= length base)%nat ->
    short_loop (dir ++ "/" ++ base) (length dir + m) = base.
Proof.
  intros Hdir Hbase. induction m as [|m IH]; intro Hm.
  - rewrite Nat.add_0_r.
    destruct (length dir) as [|n] eqn:Hlen;
      [destruct dir; [now destruct Hdir | discriminate]|].
    cbn [short_loop]. rewrite <- Hlen.
    rewrite <- (Nat.add_0_r (length dir)) at 1.
    rewrite get_app_r. cbn [append get]. rewrite Ascii.eqb_refl.
    rewrite <- (Nat.add_1_r (length dir)), substring_app_r.
    cbn [append substring].
    rewrite !append_length. cbn [length].
    replace (length dir + S (length base) - (length dir + 1))%nat
      with (length base) by lia.
    apply substring_all.
  - rewrite Nat.add_succ_r, short_loop_step; [apply IH; lia|].
    rewrite <- Nat.add_succ_r, get_app_r. cbn [append get].
    destruct (get m base) as [c|] eqn:Hg; [|exact I].
    exact (no_slash_get base Hbase m c Hg).
Qed.

(** A separator that is the first byte is never looked at. *)
Lemma short_loop_root (base : string) :
  no_slash base = true ->
  forall m : nat, short_loop ("/" ++ base) m = "/" ++ base.
Proof.
  intros Hbase. induction m as [|m IH]; [reflexivity|].
  rewrite short_loop_step; [exact IH|]. cbn [append get].
  destruct (get m base) as [c|] eqn:Hg; [|exact I].
  exact (no_slash_get base Hbase m c Hg).
Qed.

(** C6, where the code departs from it.  With [Lshortfile] the header has
    the part of the path after its last separator whenever something comes
    before that separator, also when [Llongfile] is set as well:
    [/a/b/c/d.ext] is printed as [d.ext]; [Llongfile] alone prints the
    path unchanged.  But a separator that is the first byte of the path is
    never looked at: [/d.ext] is printed whole. *)
Theorem Lshortfile_first_byte :
  (forall dir base : string,
      dir <> "" -> no_slash base = true ->
      shorten (dir ++ "/" ++ base) = base)
  /\ (forall base : string,
        no_slash base = true -> shorten ("/" ++ base) = "/" ++ base)
  /\ (forall (l : Logger) (file : string),
        header_path l file
        = if has (flag l) Lshortfile then shorten file else file)
  /\ (forall w : Writer,
        formatHeader (New w "" Lshortfile) t_2024_01_05 "/a/b/c/d.ext" 7 ""
        = Some "d.ext:7: "
        /\ formatHeader (New w "" (Z.lor Lshortfile Llongfile)) t_2024_01_05
             "/a/b/c/d.ext" 7 "" = Some "d.ext:7: "
        /\ formatHeader (New w "" Llongfile) t_2024_01_05 "/a/b/c/d.ext" 7 ""
           = Some "/a/b/c/d.ext:7: "
        /\ formatHeader (New w "" Lshortfile) t_2024_01_05 "/d.ext" 7 ""
           = Some "/d.ext:7: ").
Proof.
  split; [|split; [|split]].
  - intros dir base Hdir Hbase. unfold shorten.
    replace (length (dir ++ "/" ++ base) - 1)%nat
      with (length dir + length base)%nat
      by (rewrite !append_length; simpl; lia).
    now apply short_loop_base.
  - intros base Hbase. now apply short_loop_root.
  - reflexivity.
  - intro w. destruct w; vm_compute; repeat split.
Qed.

(** ** [Output] *)

(** The accumulated line: header, message, and the newline if it is due. *)
Lemma accumulate_run (l : Logger) (t : Time) (file : string) (line : Z)
    (s h : string) (tr : list Event) :
  formatHeader l t file line "" = Some h ->
  accumulate l t file line s tr
  = Some (set_buf l (h ++ s ++ (if needs_newline s then nl else "")), tr).
Proof.
  intro Hh. unfold accumulate, bind, on_buf, ret.
  change (formatHeader (set_buf l "") t file line (buf (set_buf l "")))
    with (formatHeader l t file line "").
  rewrite Hh. destruct (needs_newline s); unfold set_buf; cbn [buf prefix flag out isDiscard];
    now rewrite ?append_nil_r, ?append_assoc.
Qed.

(** Every branch of [wrap] builds the same bytes. *)
Lemma wrap_eq (functionName color : string) (err : error) (l : Logger) :
  wrap functionName color err l
  = set_buf l (color ++ "TIME: " ++ buf l ++ Reset).
Proof. unfold wrap. destruct (String.eqb _ _), err; reflexivity. Qed.

(** What one call of [Output] does. *)
Lemma Output_run (st : Stack) (clock : Time) (l : Logger)
    (functionName color : string) (err : error) (calldepth : Z) (s h : string)
    (tr : list Event) :
  formatHeader l clock (fst (call_site st l calldepth))
    (snd (call_site st l calldepth)) "" = Some h ->
  let p := color ++ "TIME: " ++ (h ++ s ++ (if needs_newline s then nl else ""))
           ++ Reset in
  Output st clock l functionName color err calldepth s tr
  = Some ((set_buf l p, answer (out l) p),
          (tr ++ [EvNow]
              ++ (if has (flag l) (Z.lor Lshortfile Llongfile)
                  then [EvCaller calldepth] else [])
              ++ [EvWrite (out l) p])%list).
Proof.
  intros Hh p. unfold Output, call_site in *.
  cbv [bind ret emit time_Now runtime_Caller Write].
  destruct (has (flag l) (Z.lor Lshortfile Llongfile));
    [destruct (st calldepth) as [f|]|]; cbn [negb fst snd] in *;
    rewrite (accumulate_run _ _ _ _ _ h) by exact Hh;
    cbv beta iota; rewrite wrap_eq;
    cbn [buf out set_buf]; subst p; now rewrite <- !app_assoc.
Qed.

(** C1: every call of [Output] makes exactly one [Write] on the Logger's
    sink; the bytes written are the color escape, the marker [TIME: ], the
    formatted header and the message (with its newline), and the reset
    sequence; the error returned is the one that [Write] answered; and
    neither the bytes nor the error depend on [functionName] or [err]. *)
Theorem Output_one_write (st : Stack) (clock : Time) (l : Logger)
    (functionName color : string) (err : error) (calldepth : Z) (s : string)
    (tr : list Event) :
  exists h : string,
    formatHeader l clock (fst (call_site st l calldepth))
      (snd (call_site st l calldepth)) "" = Some h
    /\ let p := color ++ "TIME: "
                ++ (h ++ s ++ (if needs_newline s then nl else "")) ++ Reset in
       exists evs : list Event,
         Output st clock l functionName color err calldepth s tr
         = Some ((set_buf l p, answer (out l) p), (tr ++ evs)%list)
         /\ writes evs = [(out l, p)]
         /\ forall (functionName' : string) (err' : error),
              Output st clock l functionName' color err' calldepth s tr
              = Output st clock l functionName color err calldepth s tr.
Proof.
  destruct (formatHeader_defined l clock (fst (call_site st l calldepth))
              (snd (call_site st l calldepth))) as [h Hh].
  exists h. split; [exact Hh|]. intro p.
  eexists. split; [apply Output_run; exact Hh|]. split.
  - destruct (has (flag l) (Z.lor Lshortfile Llongfile)); reflexivity.
  - intros fn' err'. now rewrite !(Output_run _ _ _ _ _ _ _ _ h) by exact Hh.
Qed.

(** C2, amended: [Output] resets the buffer, writes the header, appends
    [s], and appends one newline if and only if [s] is empty or does not end
    with a newline.  The accumulated line always ends with a newline, it is
    the same whether or not the caller supplied that newline, and when [s]
    is not made of newlines only it ends with [max 1 k] newlines, [k] being
    the number of newlines that end [s]: one exactly when [k <= 1]. *)
Theorem accumulate_newline (l : Logger) (t : Time) (file : string) (line : Z)
    (s old : string) (tr : list Event) :
  exists h : string,
    formatHeader l t file line "" = Some h
    /\ let acc := h ++ s ++ (if needs_newline s then nl else "") in
       accumulate (set_buf l old) t file line s tr = Some (set_buf l acc, tr)
       /\ (needs_newline s = true <-> s = "" \/ ends_with_newline s = false)
       /\ ends_with_newline acc = true
       /\ (needs_newline s = true ->
           accumulate (set_buf l old) t file line (s ++ nl) tr
           = Some (set_buf l acc, tr))
       /\ ((trailing_newlines s < length s)%nat ->
           trailing_newlines acc = Nat.max 1 (trailing_newlines s)).
Proof.
  destruct (formatHeader_defined l t file line) as [h Hh].
  exists h. split; [exact Hh|]. intro acc.
  assert (Hrun : forall m, accumulate (set_buf l old) t file line m tr
            = Some (set_buf l (h ++ m ++ (if needs_newline m then nl else "")),
                    tr))
    by (intro m; now rewrite (accumulate_run _ _ _ _ _ h) by exact Hh).
  split; [apply Hrun|]. split; [|split; [|split]].
  - rewrite needs_newline_ends.
    destruct (ends_with_newline s) eqn:He; cbn [negb]; split; intro H;
      try discriminate; try reflexivity; [|now right].
    destruct H as [->|H]; discriminate.
  - subst acc. destruct (needs_newline s) eqn:Hn.
    + rewrite <- append_assoc. unfold nl.
      rewrite ends_with_newline_snoc. apply Ascii.eqb_refl.
    + rewrite append_nil_r. rewrite needs_newline_ends in Hn.
      apply negb_false_iff in Hn.
      destruct (string_snoc s) as [->|(x & c & ->)]; [discriminate|].
      rewrite <- append_assoc. rewrite ends_with_newline_snoc.
      now rewrite ends_with_newline_snoc in Hn.
  - intro Hn. rewrite Hrun. subst acc. rewrite Hn.
    rewrite (needs_newline_ends (s ++ nl)). unfold nl.
    rewrite ends_with_newline_snoc, Ascii.eqb_refl. cbn [negb].
    now rewrite append_nil_r, ?append_assoc.
  - intro Hlt. subst acc. rewrite needs_newline_ends, ends_with_newline_trailing.
    rewrite negb_involutive.
    destruct (trailing_newlines s =? 0)%nat eqn:Hz.
    + apply Nat.eqb_eq in Hz. rewrite <- append_assoc.
      rewrite trailing_newlines_nl. rewrite trailing_newlines_app by exact Hlt.
      lia.
    + apply Nat.eqb_neq in Hz. rewrite append_nil_r.
      rewrite trailing_newlines_app by exact Hlt. lia.
Qed.

(** C8: the discard flag is set exactly when the sink is [io.Discard];
    [New] establishes this for every sink, prefix and flags, and
    [SetOutput] yields it for every writer, whatever the Logger was, so
    that it preserves it. *)
Theorem discard_flag_invariant :
  (forall (w : Writer) (pfx : string) (flg : Z),
      discard_invariant (New w pfx flg))
  /\ (forall (l : Logger) (w : Writer), discard_invariant (SetOutput l w))
  /\ (forall (l : Logger) (w : Writer),
        discard_invariant l -> discard_invariant (SetOutput l w)).
Proof.
  assert (H : forall (l : Logger) (w : Writer),
             discard_invariant (SetOutput l w))
    by (intros l w; destruct w; unfold discard_invariant; simpl;
        split; intro H; try discriminate; try reflexivity; now destruct H).
  split; [|split].
  - intros w pfx flg. destruct w; unfold discard_invariant; simpl;
      split; intro H0; try discriminate; try reflexivity; now destruct H0.
  - exact H.
  - intros l w _. apply H.
Qed.

(** C10: [SetOutput] leaves the prefix, the flag bitset and the
    accumulation buffer as they were; it sets the sink to the writer. *)
Theorem SetOutput_frame (l : Logger) (w : Writer) :
  prefix (SetOutput l w) = prefix l
  /\ flag (SetOutput l w) = flag l
  /\ buf (SetOutput l w) = buf l
  /\ out (SetOutput l w) = w.
Proof. repeat split. Qed.

(** C7: when the frame asked for does not exist, [Output] prints the file
    [???] and the line [0] in the header, makes its one [Write] as usual,
    and returns what that [Write] answered. *)
Theorem Output_caller_failure (st : Stack) (clock : Time) (l : Logger)
    (functionName color : string) (err : error) (calldepth : Z) (s : string)
    (tr : list Event) :
  has (flag l) (Z.lor Lshortfile Llongfile) = true ->
  st calldepth = None ->
  exists pre h : string,
    formatHeader l clock "???" 0 "" = Some h
    /\ h = pre ++ "???:0: "
             ++ (if has (flag l) Lmsgprefix then prefix l else "")
    /\ let p := color ++ "TIME: "
                ++ (h ++ s ++ (if needs_newline s then nl else "")) ++ Reset in
       Output st clock l functionName color err calldepth s tr
       = Some ((set_buf l p, answer (out l) p),
               (tr ++ [EvNow; EvCaller calldepth; EvWrite (out l) p])%list).
Proof.
  intros Hf Hst.
  destruct (formatHeader_file l clock "???" 0 Hf ltac:(lia)) as [pre Hpre].
  assert (Hp : header_path l "???" = "???")
    by (unfold header_path; now destruct (has (flag l) Lshortfile)).
  rewrite Hp in Hpre. change (decimal 0) with "0" in Hpre.
  exists pre. eexists. split; [exact Hpre|]. split; [reflexivity|].
  intro p.
  assert (Hc : call_site st l calldepth = ("???", 0))
    by (unfold call_site; now rewrite Hf, Hst).
  rewrite (Output_run _ _ _ _ _ _ _ _
             (pre ++ "???:0: "
                  ++ (if has (flag l) Lmsgprefix then prefix l else "")))
    by (rewrite Hc; exact Hpre).
  now rewrite Hf.
Qed.

(** ** The level functions *)

Lemma trace_3 (tr : list Event) (a b c : Event) :
  (((tr ++ [a]) ++ [b]) ++ [c] = tr ++ [a; b; c])%list.
Proof. now rewrite <- !app_assoc. Qed.

(** C3, amended: with the discard flag set, each level function captures
    the caller metadata ([runtime.Caller(1)] and the name of the running
    function) and then returns: it does not call [fmt.Sprint], does not
    read the clock, writes nothing, and leaves the Logger as it was. *)
Theorem level_functions_discard (st : Stack) (clock : Time) (std : Logger)
    (v : list any) (msg : string) (err : error) (tr : list Event) :
  discarding std = true ->
  (exists evs, Println st clock std v tr = Some (std, (tr ++ evs)%list)
               /\ In (EvCaller 1) evs
               /\ capture_only evs = true /\ writes evs = [])
  /\ (exists evs, Info st clock std v tr = Some (std, (tr ++ evs)%list)
                  /\ In (EvCaller 1) evs
                  /\ capture_only evs = true /\ writes evs = [])
  /\ (exists evs, Error st clock std msg err tr = Some (std, (tr ++ evs)%list)
                  /\ In (EvCaller 1) evs
                  /\ capture_only evs = true /\ writes evs = [])
  /\ (exists evs, Warning st clock std v tr = Some (std, (tr ++ evs)%list)
                  /\ In (EvCaller 1) evs
                  /\ capture_only evs = true /\ writes evs = []).
Proof.
  intro Hd.
  repeat split;
    cbv [Println Info Error Warning getCurrentFuncName bind ret emit
         runtime_Caller runtime_FuncForPC_Name];
    rewrite Hd;
    destruct (st 1) as [f|];
    destruct (enter self_getCurrentFuncName st 1) as [g|];
    rewrite trace_3; eexists;
    (split; [reflexivity|]); (split; [now left|]); split; reflexivity.
Qed.

(** The message of [Error] ends with the [ERROR: ] line and the reset. *)
Lemma Error_body_tail (filename : string) (line : Z) (color msg tail : string) :
  exists pre : string,
    Error_body filename line color msg tail
    = pre ++ "ERROR: " ++ tail ++ Reset.
Proof.
  unfold Error_body.
  exists (nl ++ ch tab ++ "PATH: " ++ filename ++ nl ++ ch tab ++ "LOG LINE: "
          ++ strconv_Itoa line ++ color ++ nl ++ ch tab ++ "MESSAGE: " ++ msg
          ++ nl ++ ch tab).
  now rewrite !append_assoc.
Qed.

(** What one call of [Error] does when the Logger is not discarding. *)
Lemma Error_run (st : Stack) (clock : Time) (std : Logger) (msg : string)
    (err : error) (tr : list Event) (h : string) :
  discarding std = false ->
  formatHeader std clock (fst (call_site (enter self_Output st) std 2))
    (snd (call_site (enter self_Output st) std 2)) "" = Some h ->
  let site := match st 1 with
              | Some f => (fr_file f, fr_line f)
              | None => ("", 0)
              end in
  let color := match err with Some _ => Red | None => Green end in
  let tail := match err with Some e => Error_text e | None => "NO ERROR" end in
  let m := Error_body (fst site) (snd site) color msg tail in
  let p := color ++ "TIME: "
           ++ (h ++ m ++ (if needs_newline m then nl else "")) ++ Reset in
  exists evs : list Event,
    Error st clock std msg err tr = Some (set_buf std p, (tr ++ evs)%list)
    /\ writes evs = [(out std, p)].
Proof.
  intros Hd Hh. cbv zeta.
  cbv [Error getCurrentFuncName bind ret emit runtime_Caller
       runtime_FuncForPC_Name].
  rewrite Hd.
  destruct (st 1) as [f|], err as [e|],
    (enter self_getCurrentFuncName st 1) as [g|]; cbn [fst snd];
    rewrite (Output_run _ _ _ _ _ _ _ _ h) by exact Hh;
    rewrite <- !app_assoc; eexists; (split; [reflexivity|]);
    destruct (has (flag std) (Z.lor Lshortfile Llongfile)); reflexivity.
Qed.

(** C4: while the Logger is not discarding, [Error(m, nil)] writes a line
    in the color [Green] whose message ends with [ERROR: NO ERROR], and
    [Error(m, e)] for a cause [e] writes a line in the color [Red] whose
    message ends with [ERROR: ] and the text of [e]. *)
Theorem Error_renders_cause (st : Stack) (clock : Time) (std : Logger)
    (msg : string) (tr : list Event) :
  discarding std = false ->
  (exists (h pre : string) (evs : list Event),
      let m := pre ++ "ERROR: NO ERROR" ++ Reset in
      let p := Green ++ "TIME: "
               ++ (h ++ m ++ (if needs_newline m then nl else "")) ++ Reset in
      Error st clock std msg None tr = Some (set_buf std p, (tr ++ evs)%list)
      /\ writes evs = [(out std, p)])
  /\ (forall e : error_value,
      exists (h pre : string) (evs : list Event),
        let m := pre ++ "ERROR: " ++ Error_text e ++ Reset in
        let p := Red ++ "TIME: "
                 ++ (h ++ m ++ (if needs_newline m then nl else "")) ++ Reset in
        Error st clock std msg (Some e) tr = Some (set_buf std p, (tr ++ evs)%list)
        /\ writes evs = [(out std, p)]).
Proof.
  intro Hd.
  destruct (formatHeader_defined std clock
              (fst (call_site (enter self_Output st) std 2))
              (snd (call_site (enter self_Output st) std 2))) as [h Hh].
  split; [|intro e].
  - destruct (Error_run st clock std msg None tr h Hd Hh) as [evs Hevs].
    cbv zeta in Hevs.
    match type of Hevs with
    | context [Error_body ?f ?n ?c ?m ?t] =>
        destruct (Error_body_tail f n c m t) as [pre Hpre]
    end.
    rewrite Hpre in Hevs. now exists h, pre, evs.
  - destruct (Error_run st clock std msg (Some e) tr h Hd Hh) as [evs Hevs].
    cbv zeta in Hevs.
    match type of Hevs with
    | context [Error_body ?f ?n ?c ?m ?t] =>
        destruct (Error_body_tail f n c m t) as [pre Hpre]
    end.
    rewrite Hpre in Hevs. now exists h, pre, evs.
Qed.

(** ** Concurrent calls *)

Lemma flatten_snoc (ls : list string) (x : string) :
  flatten (ls ++ [x])%list = flatten ls ++ x.
Proof.
  induction ls as [|y ls IH]; simpl.
  - apply append_nil_r.
  - now rewrite IH, append_assoc.
Qed.

Lemma header_of_eq (l : Logger) (t : Time) (file : string) (line : Z) :
  formatHeader l t file line "" = Some (header_of l t file line).
Proof.
  unfold header_of.
  destruct (formatHeader_defined l t file line) as [h Hh]. now rewrite Hh.
Qed.

Lemma buf_wrap (functionName color : string) (err : error) (l : Logger)
    (b : string) :
  buf (wrap functionName color err (set_buf l b))
  = color ++ "TIME: " ++ b ++ Reset.
Proof. now rewrite wrap_eq. Qed.

(** The line of a call is what [Output] writes when the call runs alone. *)
Lemma written_alone_line (l : Logger) (c : Call) :
  written_alone l c = line_of l c.
Proof.
  unfold written_alone.
  rewrite (Output_run _ _ _ _ _ _ _ _ (hdr l c)) by apply header_of_eq.
  destruct (has (flag l) (Z.lor Lshortfile Llongfile)); cbn;
    now rewrite append_nil_r.
Qed.

(** Case analysis on the statement a call runs. *)
Ltac step_cases Hok Hst :=
  forget_runtime;
  match type of Hst with
  | thread_step _ _ _ ?sh ?lo = _ =>
      destruct lo as [p f n]; destruct sh as [m b k];
      unfold local_ok in Hok; unfold thread_step in Hst;
      cbn [lo_pc lo_file lo_line sh_mu sh_buf sh_sink] in Hok, Hst;
      destruct Hok as [Hmu Hok];
      destruct p; cbn [holds] in Hmu;
      repeat match type of Hst with
             | match ?x with _ => _ end = _ =>
                 let E := fresh "E" in destruct x eqn:E
             end;
      try discriminate Hst;
      injection Hst as <- <-;
      cbn [goto set_mu set_sbuf set_sink lo_pc lo_file lo_line
           sh_mu sh_buf sh_sink holds finished] in *
  end.

Lemma thread_step_local (l : Logger) (i : nat) (c : Call) (sh sh' : Shared)
    (lo lo' : Local) :
  local_ok l i c lo sh ->
  thread_step l i c sh lo = Some (sh', lo') ->
  local_ok l i c lo' sh'.
Proof.
  intros Hok Hst. step_cases Hok Hst; unfold local_ok;
    cbn [goto set_mu set_sbuf set_sink lo_pc lo_file lo_line
         sh_mu sh_buf sh_sink holds].
  - (* PNow *) tauto.
  - (* PLock *) tauto.
  - (* PFlag *)
    destruct Hok as [-> ->]. change 24 with (Z.lor Lshortfile Llongfile).
    destruct (has (flag l) (Z.lor Lshortfile Llongfile)) eqn:Hf;
      cbn [holds]; (split; [exact Hmu|]); [reflexivity|].
    unfold site_of, call_site. now rewrite Hf.
  - (* PUnlock1 *) split; [split; discriminate | exact Hok].
  - (* PCaller *)
    unfold site_of, call_site. rewrite Hok.
    destruct (c_stack c (c_calldepth c)); cbn [lo_pc lo_file lo_line holds];
      (split; [exact Hmu | reflexivity]).
  - (* PLock2 *) tauto.
  - (* PReset *) tauto.
  - (* PHeader *)
    split; [exact Hmu|]. destruct Hok as [Hsite ->].
    unfold hdr. rewrite <- Hsite. cbn [fst snd].
    rewrite header_of_eq in E. now injection E.
  - (* PAppend *) split; [exact Hmu | now rewrite Hok].
  - (* PNewline *)
    unfold acc_of. rewrite <- append_assoc, <- Hok.
    destruct (needs_newline (c_s c)); cbn [sh_mu sh_buf set_sbuf];
      (split; [exact Hmu|]); [reflexivity | now rewrite append_nil_r].
  - (* PWrap *)
    split; [exact Hmu|]. rewrite buf_wrap, Hok. split; [reflexivity | lia].
  - (* PWrite, a byte *)
    split; [exact Hmu|]. destruct Hok as [-> Hk]. split; [reflexivity|].
    apply get_Some_lt in E. lia.
  - (* PWrite, the end *) tauto.
  - (* PUnlock2 *) split; [split; discriminate | exact I].
Qed.

(** A statement of call [i] leaves alone the mutex and the buffer of a
    holder [j], and does not make [j] the holder. *)
Lemma thread_step_frame (l : Logger) (i : nat) (c : Call) (sh sh' : Shared)
    (lo lo' : Local) :
  local_ok l i c lo sh ->
  thread_step l i c sh lo = Some (sh', lo') ->
  forall j : nat, j <> i ->
    (sh_mu sh = Some j -> sh_mu sh' = Some j /\ sh_buf sh' = sh_buf sh)
    /\ (sh_mu sh <> Some j -> sh_mu sh' <> Some j).
Proof.
  intros Hok Hst. step_cases Hok Hst; intros j Hj;
    try destruct (needs_newline (c_s c));
    cbn [sh_mu sh_buf set_sbuf];
    try (assert (Hm : m = Some i) by tauto; subst m);
    split; intro H; try congruence; try tauto.
Qed.

(** What a statement does to the sink: nothing, except for the bytes of
    [Write]. *)
Lemma thread_step_sink (l : Logger) (i : nat) (c : Call) (sh sh' : Shared)
    (lo lo' : Local) :
  local_ok l i c lo sh ->
  thread_step l i c sh lo = Some (sh', lo') ->
  (sh_sink sh' = sh_sink sh
   /\ finished (lo_pc lo') = finished (lo_pc lo)
   /\ (forall k, lo_pc lo <> PWrite k) /\ (forall k, lo_pc lo' <> PWrite k))
  \/ (lo_pc lo = PWrap /\ lo_pc lo' = PWrite 0 /\ sh_sink sh' = sh_sink sh
      /\ sh_mu sh = Some i /\ sh_mu sh' = Some i)
  \/ (exists (k : nat) (b : ascii),
        lo_pc lo = PWrite k /\ lo_pc lo' = PWrite (S k)
        /\ get k (line_of l c) = Some b
        /\ sh_sink sh' = sh_sink sh ++ ch b
        /\ sh_mu sh = Some i /\ sh_mu sh' = Some i)
  \/ (lo_pc lo = PWrite (length (line_of l c)) /\ lo_pc lo' = PUnlock2
      /\ sh_sink sh' = sh_sink sh
      /\ sh_mu sh = Some i /\ sh_mu sh' = Some i).
Proof.
  intros Hok Hst. step_cases Hok Hst.
  1-10, 14: left.
  1-11: try change 24 with (Z.lor Lshortfile Llongfile);
        try destruct (has (flag l) (Z.lor Lshortfile Llongfile));
        try destruct (needs_newline (c_s c));
        try destruct (c_stack c (c_calldepth c));
        cbn [sh_sink set_sbuf lo_pc finished];
        repeat split; intros; discriminate.
  - right; left. repeat split; tauto.
  - right; right; left. destruct Hok as [-> Hk].
    exists k0, a. repeat split; tauto.
  - right; right; right. destruct Hok as [-> Hk].
    apply get_None_ge in E.
    replace k0 with (length (line_of l c)) by lia. repeat split; tauto.
Qed.

(** A call that holds the mutex can run its statement, and so can a call
    that has not returned when the mutex is free. *)
Lemma thread_step_enabled (l : Logger) (i : nat) (c : Call) (sh : Shared)
    (lo : Local) :
  local_ok l i c lo sh ->
  sh_mu sh = Some i \/ (sh_mu sh = None /\ lo_pc lo <> PDone) ->
  exists r, thread_step l i c sh lo = Some r.
Proof.
  intros [Hmu Hok] Hen. unfold thread_step.
  destruct (formatHeader_defined l (c_clock c) (lo_file lo) (lo_line lo))
    as [h Hh].
  destruct (lo_pc lo) eqn:Hpc; cbn [holds] in Hmu;
    try (rewrite (proj2 Hok), Hh);
    try (destruct (get k (sh_buf sh)));
    try (eexists; reflexivity);
    destruct Hen as [Hen|[Hen Hne]]; try (rewrite Hen);
    try (eexists; reflexivity); try congruence;
    destruct Hmu as [_ Hmu]; specialize (Hmu Hen); discriminate.
Qed.

(** Every statement brings its call nearer to its return. *)
Lemma thread_step_rank (l : Logger) (i : nat) (c : Call) (sh sh' : Shared)
    (lo lo' : Local) :
  local_ok l i c lo sh ->
  thread_step l i c sh lo = Some (sh', lo') ->
  (rank (length (line_of l c)) (lo_pc lo')
   < rank (length (line_of l c)) (lo_pc lo))%nat.
Proof.
  intros Hok Hst. step_cases Hok Hst;
    try change 24 with (Z.lor Lshortfile Llongfile);
    try destruct (has (flag l) (Z.lor Lshortfile Llongfile));
    try destruct (c_stack c (c_calldepth c));
    cbn [rank lo_pc]; try lia.
  all: destruct Hok as [Hb Hk]; subst b; apply get_Some_lt in E; lia.
Qed.

(** What another call knows is not disturbed. *)
Lemma local_ok_other (l : Logger) (j : nat) (c : Call) (lo : Local)
    (sh sh' : Shared) :
  local_ok l j c lo sh ->
  (sh_mu sh = Some j -> sh_mu sh' = Some j /\ sh_buf sh' = sh_buf sh) ->
  (sh_mu sh <> Some j -> sh_mu sh' <> Some j) ->
  local_ok l j c lo sh'.
Proof.
  forget_runtime. intros [Hmu Hok] H1 H2. unfold local_ok.
  destruct (holds (lo_pc lo)) eqn:Hh.
  - destruct (H1 (proj1 Hmu eq_refl)) as [Hm' Hb'].
    rewrite Hb'. split; [tauto | exact Hok].
  - assert (Hn : sh_mu sh <> Some j)
      by (intro H; apply Hmu in H; discriminate).
    split; [split; [discriminate | intro H; now apply H2 in Hn]|].
    destruct (lo_pc lo); try discriminate Hh; exact Hok.
Qed.

Section Interleaving.

Variables (l : Logger) (calls : nat -> Call) (N : nat).

Lemma Inv_init : Inv l calls N (init l).
Proof.
  split; [discriminate|]. split.
  - intros i _. split; [split; discriminate | now split].
  - exists []. split; [constructor|]. split; [|reflexivity].
    intro i. split; [contradiction | intros [_ H]; discriminate].
Qed.

(** The write in progress is not affected by a statement that is not
    part of a write. *)
Lemma partial_same (sg : State) (i : nat) (sh' : Shared) (lo' : Local) :
  (forall j, j <> i ->
     (sh_mu (shared sg) = Some j -> sh_mu sh' = Some j)
     /\ (sh_mu (shared sg) <> Some j -> sh_mu sh' <> Some j)) ->
  (forall k, lo_pc (locals sg i) <> PWrite k) ->
  (forall k, lo_pc lo' <> PWrite k) ->
  partial l calls (mkState sh' (update (locals sg) i lo'))
  = partial l calls sg.
Proof.
  intros Hfr Hpc Hpc'. unfold partial. cbn [shared locals].
  assert (Hown : forall lo, (forall k, lo_pc lo <> PWrite k) ->
            match lo_pc lo with
            | PWrite k => substring 0 k (line_of l (calls i))
            | _ => ""
            end = "")
    by (intros lo H; destruct (lo_pc lo); try reflexivity; now destruct (H k)).
  destruct (sh_mu sh') as [j|] eqn:Hm'.
  - destruct (Nat.eq_dec j i) as [->|Hne].
    + unfold update. rewrite Nat.eqb_refl, (Hown lo' Hpc').
      destruct (sh_mu (shared sg)) as [j0|] eqn:Hm; [|reflexivity].
      destruct (Nat.eq_dec j0 i) as [->|Hne0]; [now rewrite (Hown _ Hpc)|].
      destruct (Hfr j0 Hne0) as [H1 _]. specialize (H1 eq_refl). congruence.
    + destruct (Hfr j Hne) as [_ H2].
      destruct (sh_mu (shared sg)) as [j0|] eqn:Hm.
      * destruct (Nat.eq_dec j0 j) as [->|Hne0].
        -- unfold update. apply Nat.eqb_neq in Hne. now rewrite Hne.
        -- exfalso. apply H2; congruence.
      * exfalso. apply H2; congruence.
  - destruct (sh_mu (shared sg)) as [j0|] eqn:Hm; [|reflexivity].
    destruct (Nat.eq_dec j0 i) as [->|Hne0]; [now rewrite (Hown _ Hpc)|].
    destruct (Hfr j0 Hne0) as [H1 _]. specialize (H1 eq_refl). congruence.
Qed.

(** Every statement of every call keeps the invariant. *)
Lemma step_Inv (sg sg' : State) (i : nat) :
  Inv l calls N sg -> (i < N)%nat ->
  step_thread l calls i sg = Some sg' -> Inv l calls N sg'.
Proof.
  forget_runtime.
  intros (Hmu & Hloc & order & Hnd & Hord & Hsink) Hi Hst.
  unfold step_thread in Hst.
  destruct (thread_step l i (calls i) (shared sg) (locals sg i))
    as [[sh' lo']|] eqn:Hts; [|discriminate].
  injection Hst as <-.
  pose proof (Hloc i Hi) as Hli.
  pose proof (thread_step_local _ _ _ _ _ _ _ Hli Hts) as Hli'.
  pose proof (thread_step_frame _ _ _ _ _ _ _ Hli Hts) as Hfr.
  assert (Hfr' : forall j, j <> i ->
            (sh_mu (shared sg) = Some j -> sh_mu sh' = Some j)
            /\ (sh_mu (shared sg) <> Some j -> sh_mu sh' <> Some j))
    by (intros j Hj; destruct (Hfr j Hj) as [H1 H2]; split;
        [intro H; now apply H1 | exact H2]).
  assert (Hup : update (locals sg) i lo' i = lo')
    by (unfold update; now rewrite Nat.eqb_refl).
  assert (Hup' : forall j, j <> i -> update (locals sg) i lo' j = locals sg j)
    by (intros j Hj; unfold update; apply Nat.eqb_neq in Hj; now rewrite Hj).
  split; [|split].
  - intros j Hj. cbn [shared] in Hj.
    destruct (Nat.eq_dec j i) as [->|Hne]; [exact Hi|].
    apply Hmu. destruct (Hfr j Hne) as [_ H2].
    destruct (sh_mu (shared sg)) as [j0|] eqn:Hm.
    + destruct (Nat.eq_dec j0 j) as [->|Hne0]; [reflexivity|].
      exfalso. apply H2; congruence.
    + exfalso. apply H2; congruence.
  - intros j Hj. cbn [shared locals].
    destruct (Nat.eq_dec j i) as [->|Hne]; [now rewrite Hup|].
    rewrite (Hup' j Hne).
    destruct (Hfr j Hne) as [H1 H2].
    apply (local_ok_other l j (calls j) (locals sg j) (shared sg) sh');
      [now apply Hloc | exact H1 | exact H2].
  - destruct (thread_step_sink _ _ _ _ _ _ _ Hli Hts)
      as [(Hs & Hf & Hp & Hp')
         |[(Hp & Hp' & Hs & Hm & Hm')
          |[(k & b & Hp & Hp' & Hg & Hs & Hm & Hm')
           |(Hp & Hp' & Hs & Hm & Hm')]]].
    + exists order. split; [exact Hnd|]. split.
      * intro j. rewrite Hord. cbn [locals].
        destruct (Nat.eq_dec j i) as [->|Hne];
          [now rewrite Hup, Hf | now rewrite (Hup' j Hne)].
      * cbn [shared]. now rewrite Hs, Hsink, partial_same.
    + exists order. split; [exact Hnd|]. split.
      * intro j. rewrite Hord. cbn [locals].
        destruct (Nat.eq_dec j i) as [->|Hne];
          [now rewrite Hup, Hp, Hp' | now rewrite (Hup' j Hne)].
      * cbn [shared]. rewrite Hs, Hsink. f_equal.
        unfold partial. cbn [shared locals]. rewrite Hm, Hm', Hup, Hp, Hp'.
        now rewrite substring_0_0.
    + exists order. split; [exact Hnd|]. split.
      * intro j. rewrite Hord. cbn [locals].
        destruct (Nat.eq_dec j i) as [->|Hne];
          [now rewrite Hup, Hp, Hp' | now rewrite (Hup' j Hne)].
      * cbn [shared]. rewrite Hs, Hsink, append_assoc. f_equal.
        unfold partial. cbn [shared locals]. rewrite Hm, Hm', Hup, Hp, Hp'.
        now rewrite (substring_snoc _ _ _ Hg).
    + exists (order ++ [i])%list. split; [|split].
      * apply NoDup_app; [exact Hnd | repeat constructor; intros [] |].
        intros j Hj [<-|[]]. apply Hord in Hj. rewrite Hp in Hj.
        now destruct Hj.
      * intro j. rewrite in_app_iff, Hord. cbn [locals In].
        destruct (Nat.eq_dec j i) as [->|Hne].
        -- rewrite Hup, Hp, Hp'. cbn [finished]. intuition discriminate.
        -- rewrite (Hup' j Hne). intuition congruence.
      * cbn [shared]. rewrite Hs, Hsink, map_app. cbn [map].
        rewrite flatten_snoc.
        unfold partial. cbn [shared locals]. rewrite Hm, Hm', Hup, Hp, Hp'.
        now rewrite substring_all, append_nil_r.
Qed.

Lemma steps_Inv (sg : State) :
  steps l calls N (init l) sg -> Inv l calls N sg.
Proof.
  induction 1 as [|sg1 sg2 i _ IH Hi Hst]; [apply Inv_init|].
  exact (step_Inv sg1 sg2 i IH Hi Hst).
Qed.

(** *** The calls run to completion *)

Lemma list_sum_head (a : nat) (r : list nat) :
  list_sum (a :: r) = (a + list_sum r)%nat.
Proof. reflexivity. Qed.

Lemma list_sum_update (f g : nat -> nat) (i : nat) :
  forall len start : nat,
    (start <= i < start + len)%nat ->
    (forall j, j <> i -> g j = f j) -> (g i < f i)%nat ->
    (list_sum (map g (seq start len)) < list_sum (map f (seq start len)))%nat.
Proof.
  assert (Hsame : forall len start, (i < start)%nat ->
            (forall j, j <> i -> g j = f j) ->
            list_sum (map g (seq start len)) = list_sum (map f (seq start len))).
  { induction len as [|len IH]; intros start Hlt Hj; [reflexivity|].
    cbn [seq map]. rewrite !list_sum_head.
    rewrite (IH (S start)) by (try lia; exact Hj).
    rewrite Hj by lia. reflexivity. }
  induction len as [|len IH]; intros start Hi Hj Hlt; [lia|].
  cbn [seq map]. rewrite !list_sum_head.
  destruct (Nat.eq_dec start i) as [->|Hne].
  - rewrite (Hsame len (S i)) by (try lia; exact Hj). lia.
  - rewrite (Hj start Hne).
    specialize (IH (S start) ltac:(lia) Hj Hlt). lia.
Qed.

Lemma step_measure (sg sg' : State) (i : nat) :
  Inv l calls N sg -> (i < N)%nat ->
  step_thread l calls i sg = Some sg' ->
  (measure l calls N sg' < measure l calls N sg)%nat.
Proof.
  intros (_ & Hloc & _) Hi Hst. unfold step_thread in Hst.
  destruct (thread_step l i (calls i) (shared sg) (locals sg i))
    as [[sh' lo']|] eqn:Hts; [|discriminate].
  injection Hst as <-. unfold measure. cbn [locals].
  apply (list_sum_update _ _ i); [lia | |].
  - intros j Hj. unfold update. apply Nat.eqb_neq in Hj. now rewrite Hj.
  - unfold update. rewrite Nat.eqb_refl.
    exact (thread_step_rank _ _ _ _ _ _ _ (Hloc i Hi) Hts).
Qed.

(** While a call has not returned, some call can run a statement: the
    holder of the mutex if there is one, any such call otherwise. *)
Lemma progress (sg : State) (i : nat) :
  Inv l calls N sg -> (i < N)%nat -> lo_pc (locals sg i) <> PDone ->
  exists (j : nat) (sg' : State),
    (j < N)%nat /\ step_thread l calls j sg = Some sg'.
Proof.
  intros (Hmu & Hloc & _) Hi Hpc. unfold step_thread.
  destruct (sh_mu (shared sg)) as [j|] eqn:Hm.
  - destruct (thread_step_enabled l j (calls j) (shared sg) (locals sg j))
      as [[sh' lo'] Hr]; [apply Hloc; now apply Hmu | now left |].
    exists j. eexists. split; [now apply Hmu|]. now rewrite Hr.
  - destruct (thread_step_enabled l i (calls i) (shared sg) (locals sg i))
      as [[sh' lo'] Hr]; [now apply Hloc | now right |].
    exists i. eexists. split; [exact Hi|]. now rewrite Hr.
Qed.

Lemma Pc_eq_dec (p q : Pc) : {p = q} + {p <> q}.
Proof. decide equality. apply Nat.eq_dec. Defined.

Lemma all_done_dec (sg : State) :
  forall n : nat,
    (forall i, (i < n)%nat -> lo_pc (locals sg i) = PDone)
    \/ exists i, (i < n)%nat /\ lo_pc (locals sg i) <> PDone.
Proof.
  induction n as [|n [IH|(i & Hi & Hpc)]].
  - left. intros i Hi. lia.
  - destruct (Pc_eq_dec (lo_pc (locals sg n)) PDone) as [Hd|Hd].
    + left. intros i Hi. destruct (Nat.eq_dec i n) as [->|Hne];
        [exact Hd | apply IH; lia].
    + right. exists n. split; [lia | exact Hd].
  - right. exists i. split; [lia | exact Hpc].
Qed.

Lemma steps_left (sg sg1 sg2 : State) (i : nat) :
  (i < N)%nat -> step_thread l calls i sg = Some sg1 ->
  steps l calls N sg1 sg2 -> steps l calls N sg sg2.
Proof.
  intros Hi Hst H. induction H as [|sga sgb j _ IH Hj Hstj].
  - exact (steps_step l calls N sg sg sg1 i (steps_refl _ _ _ _) Hi Hst).
  - exact (steps_step l calls N sg sga sgb j IH Hj Hstj).
Qed.

Lemma completion (n : nat) :
  forall sg : State,
    (measure l calls N sg <= n)%nat -> Inv l calls N sg ->
    exists sg', steps l calls N sg sg' /\ all_done N sg'.
Proof.
  induction n as [|n IH]; intros sg Hm HI.
  - destruct (all_done_dec sg N) as [Hd|(i & Hi & Hpc)].
    + exists sg. split; [constructor | exact Hd].
    + destruct (progress sg i HI Hi Hpc) as (j & sg1 & Hj & Hst).
      pose proof (step_measure sg sg1 j HI Hj Hst). lia.
  - destruct (all_done_dec sg N) as [Hd|(i & Hi & Hpc)].
    + exists sg. split; [constructor | exact Hd].
    + destruct (progress sg i HI Hi Hpc) as (j & sg1 & Hj & Hst).
      pose proof (step_measure sg sg1 j HI Hj Hst).
      destruct (IH sg1 ltac:(lia) (step_Inv sg sg1 j HI Hj Hst))
        as (sg' & Hsteps & Hd).
      exists sg'. split; [exact (steps_left sg sg1 sg' j Hj Hst Hsteps)|].
      exact Hd.
Qed.

Lemma run_steps (schedule : list nat) :
  forall sg : State,
    Forall (fun i => (i < N)%nat) schedule ->
    steps l calls N sg (run l calls schedule sg).
Proof.
  induction schedule as [|i schedule IH]; intros sg Hs; [constructor|].
  inversion Hs as [|? ? Hi Hs']; subst. cbn [run].
  destruct (step_thread l calls i sg) as [sg'|] eqn:Hst.
  - exact (steps_left sg sg' _ i Hi Hst (IH sg' Hs')).
  - exact (IH sg Hs').
Qed.

Lemma lines_written_alone (order : list nat) :
  flatten (map (fun i => line_of l (calls i)) order)
  = flatten (map (fun i => written_alone l (calls i)) order).
Proof.
  f_equal. apply map_ext. intro i. symmetry. apply written_alone_line.
Qed.

(** C9: [N] calls of [Output] on one Logger, their statements interleaved
    in any order and the bytes of each [Write] handed over one by one.
    When all calls have returned the sink has received the [N] lines, each
    whole and as its call writes it alone, in some order; at every moment
    it holds whole lines followed by the part written so far of the line
    of the call that holds the mutex; a call reads or assigns the buffer
    only while it holds the mutex; and the calls can always run on until
    all have returned. *)
Theorem concurrent_Output_atomic :
  (forall sg : State,
      steps l calls N (init l) sg -> all_done N sg ->
      exists order : list nat,
        Permutation order (seq 0 N)
        /\ sh_sink (shared sg)
           = flatten (map (fun i => written_alone l (calls i)) order))
  /\ (forall sg : State,
        steps l calls N (init l) sg ->
        exists (order : list nat) (p : string),
          NoDup order
          /\ sh_sink (shared sg)
             = flatten (map (fun i => written_alone l (calls i)) order) ++ p
          /\ (p = ""
              \/ exists i k : nat,
                   (i < N)%nat /\ ~ In i order
                   /\ sh_mu (shared sg) = Some i
                   /\ p = substring 0 k (written_alone l (calls i))))
  /\ (forall (sg sg' : State) (i : nat),
        steps l calls N (init l) sg -> (i < N)%nat ->
        step_thread l calls i sg = Some sg' ->
        touches_buf (lo_pc (locals sg i)) = true ->
        sh_mu (shared sg) = Some i)
  /\ (forall sg : State,
        steps l calls N (init l) sg ->
        exists sg' : State, steps l calls N sg sg' /\ all_done N sg').
Proof.
  split; [|split; [|split]].
  - intros sg Hsteps Hdone.
    destruct (steps_Inv sg Hsteps) as (Hmu & _ & order & Hnd & Hord & Hsink).
    exists order. split.
    + apply NoDup_Permutation; [exact Hnd | apply seq_NoDup |].
      intro i. rewrite Hord, in_seq. split.
      * intros [Hi _]. lia.
      * intros [_ Hi]. split; [lia|]. now rewrite (Hdone i) by lia.
    + rewrite Hsink, lines_written_alone.
      unfold partial. destruct (sh_mu (shared sg)) as [j|] eqn:Hm.
      * rewrite (Hdone j) by now apply Hmu. apply append_nil_r.
      * apply append_nil_r.
  - intros sg Hsteps.
    destruct (steps_Inv sg Hsteps) as (Hmu & _ & order & Hnd & Hord & Hsink).
    exists order, (partial l calls sg).
    split; [exact Hnd|]. split; [now rewrite Hsink, lines_written_alone|].
    unfold partial. destruct (sh_mu (shared sg)) as [j|] eqn:Hm; [|now left].
    destruct (lo_pc (locals sg j)) eqn:Hpc; try (now left).
    right. exists j, k. split; [now apply Hmu|]. split.
    + intro Hin. apply Hord in Hin. rewrite Hpc in Hin. now destruct Hin.
    + split; [reflexivity | now rewrite written_alone_line].
  - intros sg sg' i Hsteps Hi Hst Ht.
    destruct (steps_Inv sg Hsteps) as (_ & Hloc & _).
    destruct (Hloc i Hi) as [Hh _]. apply Hh.
    destruct (lo_pc (locals sg i)); try discriminate Ht; reflexivity.
  - intros sg Hsteps.
    exact (completion (measure l calls N sg) sg (Nat.le_refl _)
             (steps_Inv sg Hsteps)).
Qed.

End Interleaving.

(** * Further properties of the code *)

(** ** [itoa] *)



















(** ** [formatHeader] *)

Lemma uniform_skip : uniform skip.
Proof. exists "". intro b. unfold skip. now rewrite append_nil_r. Qed.

Lemma uniform_bytes (s : string) : uniform (append_bytes s).
Proof. now exists s. Qed.

Lemma uniform_itoa (i wid : Z) : wid <= 20 -> uniform (itoa i wid).
Proof.
  forget_runtime. intro H. unfold itoa.
  destruct (itoa_loop_defined 20 (int64 i) wid "") as [d Hd]; try lia.
  - pose proof (int64_range i).
    change (10 ^ Z.of_nat 20) with 100000000000000000000.
    change (2 ^ 63) with 9223372036854775808 in *. lia.
  - exists d. intro b. rewrite Hd. now rewrite append_nil_r.
Qed.

Lemma uniform_seq (a c : BufOp) : uniform a -> uniform c -> uniform (a ;; c).
Proof.
  intros [d Hd] [e He]. exists (d ++ e). intro b.
  unfold seq_op. rewrite Hd, He. now rewrite append_assoc.
Qed.

Lemma uniform_when (c : bool) (a : BufOp) : uniform a -> uniform (when c a).
Proof. intro Ha. destruct c; [exact Ha | exact uniform_skip]. Qed.

Ltac uniform_parts :=
  repeat first [ apply uniform_seq | apply uniform_when | apply uniform_bytes
               | apply uniform_itoa; lia ].

(** X4: [formatHeader] never panics, whatever the instant, the file and
    the line, negative ones included; it leaves the bytes already in the
    buffer in place and appends a header that does not depend on them,
    nor on any field of the Logger but [flag] and [prefix]. *)
Theorem formatHeader_uniform (l : Logger) (t : Time) (file : string)
    (line : Z) :
  exists h : string,
    forall (l' : Logger) (b : string),
      flag l' = flag l -> prefix l' = prefix l ->
      formatHeader l' t file line b = Some (b ++ h).
Proof.
  forget_runtime.
  assert (Hu : uniform (formatHeader l t file line)).
  { unfold formatHeader.
    destruct (Date (if has (flag l) LUTC then UTC t else t)) as [[y m] d].
    destruct (Clock (if has (flag l) LUTC then UTC t else t)) as [[h mi] sec].
    uniform_parts. }
  destruct Hu as [h Hh]. exists h. intros l' b Hf Hp.
  rewrite <- (Hh b). unfold formatHeader. now rewrite Hf, Hp.
Qed.

(** X5: with [LUTC] the header shows the instant and not the location:
    two [Time] values for the same instant give the same header, whatever
    their zone offsets. *)
Theorem formatHeader_LUTC (l : Logger) (t t' : Time) (file : string)
    (line : Z) (b : string) :
  has (flag l) LUTC = true ->
  unixSec t = unixSec t' -> nsec t = nsec t' ->
  formatHeader l t file line b = formatHeader l t' file line b.
Proof.
  forget_runtime. intros Hu Hs Hn. unfold formatHeader. rewrite Hu.
  cbv zeta. unfold Date, Clock, Nanosecond, wallSec, UTC.
  cbn [unixSec nsec zoneOffset]. now rewrite Hs, Hn.
Qed.

Lemma has_lor_flag (f g m : Z) : has (Z.lor f g) m = has f m || has g m.
Proof.
  forget_runtime. unfold has. rewrite Z.land_lor_distr_l, <- negb_andb.
  f_equal.
  destruct (Z.eqb_spec (Z.land f m) 0) as [Ha|Ha];
    destruct (Z.eqb_spec (Z.land g m) 0) as [Hb|Hb]; simpl;
    [apply Z.eqb_eq | apply Z.eqb_neq ..]; rewrite Z.lor_eq_0_iff; tauto.
Qed.

(** X6: [Lmsgprefix] moves the prefix from the front of the header to its
    end and changes nothing else. *)
Theorem Lmsgprefix_moves_prefix (l1 l2 : Logger) (t : Time) (file : string)
    (line : Z) :
  has (flag l1) Lmsgprefix = false ->
  flag l2 = Z.lor (flag l1) Lmsgprefix -> prefix l2 = prefix l1 ->
  exists mid : string,
    forall b : string,
      formatHeader l1 t file line b = Some (b ++ prefix l1 ++ mid)
      /\ formatHeader l2 t file line b = Some (b ++ mid ++ prefix l1).
Proof.
  forget_runtime. intros Hm Hf Hp. unfold formatHeader.
  rewrite Hf, Hp, !has_lor_flag, Hm.
  repeat match goal with
         | |- context [has Lmsgprefix ?m] =>
             let v := eval vm_compute in (has Lmsgprefix m) in
             change (has Lmsgprefix m) with v
         end.
  rewrite !orb_false_r. cbn [orb negb when].
  set (B := when (has (flag l1) (Z.lor Ldate (Z.lor Ltime Lmicroseconds))) _).
  set (C := when (has (flag l1) (Z.lor Lshortfile Llongfile)) _).
  assert (HB : uniform B).
  { subst B.
    destruct (Date (if has (flag l1) LUTC then UTC t else t)) as [[y m] d].
    destruct (Clock (if has (flag l1) LUTC then UTC t else t))
      as [[h mi] sec].
    uniform_parts. }
  assert (HC : uniform C) by (subst C; uniform_parts).
  destruct HB as [dB HB]. destruct HC as [dC HC].
  exists (dB ++ dC). intro b. unfold seq_op, append_bytes, skip.
  rewrite !HB, !HC. split; now rewrite ?append_nil_r, ?append_assoc.
Qed.

Ltac closed_flags c :=
  repeat match goal with
         | |- context [has c ?m] =>
             let v := eval vm_compute in (has c m) in
             change (has c m) with v
         end.

(** X7: flags that add nothing.  [Lshortfile] overrides [Llongfile]:
    setting [Llongfile] too changes no header.  [Lmicroseconds] implies
    [Ltime]: setting [Ltime] too changes no header.  [LUTC] alone, without
    a date or time flag, changes no header. *)
Theorem redundant_flags (l1 l2 : Logger) (t : Time) (file : string)
    (line : Z) (b : string) :
  prefix l2 = prefix l1 ->
  (has (flag l1) Lshortfile = true /\ flag l2 = Z.lor (flag l1) Llongfile)
  \/ (has (flag l1) Lmicroseconds = true
      /\ flag l2 = Z.lor (flag l1) Ltime)
  \/ (has (flag l1) (Z.lor Ldate (Z.lor Ltime Lmicroseconds)) = false
      /\ flag l2 = Z.lor (flag l1) LUTC) ->
  formatHeader l2 t file line b = formatHeader l1 t file line b.
Proof.
  forget_runtime. intros Hp H. unfold formatHeader.
  destruct H as [[H Hf]|[[H Hf]|[H Hf]]];
    rewrite Hf, Hp, !has_lor_flag;
    closed_flags Llongfile; closed_flags Ltime; closed_flags LUTC;
    rewrite ?orb_false_r, ?orb_true_r.
  - rewrite !has_lor, H. reflexivity.
  - rewrite !has_lor, H. rewrite ?orb_true_r. reflexivity.
  - rewrite H. reflexivity.
Qed.

(** X8: without a file flag the header has a fixed width, so that the
    messages of a Logger start in the same column: the length of the
    prefix, 11 bytes for the date, and 9 bytes for the time or 16 with
    microseconds, which [Lmicroseconds] alone also prints; the file and the
    line passed are not looked at.  The standard flags give 20 bytes. *)
Theorem formatHeader_width (l : Logger) (t : Time) (file : string) (line : Z) :
  has (flag l) (Z.lor Lshortfile Llongfile) = false ->
  (has (flag l) Ldate = true -> 0 <= year_of (header_time l t) <= 9999) ->
  exists h : string,
    (forall (file' : string) (line' : Z) (b : string),
        formatHeader l t file' line' b = Some (b ++ h))
    /\ length h
       = (length (prefix l)
          + (if has (flag l) Ldate then 11 else 0)
          + (if has (flag l) Lmicroseconds then 16
             else if has (flag l) Ltime then 9 else 0))%nat
    /\ (flag l = LstdFlags -> length h = (length (prefix l) + 20)%nat).
Proof.
  forget_runtime. intros Hf Hy.
  pose proof Hf as Hf'. rewrite has_lor in Hf'.
  exists (spec_header l t file line).
  assert (Hs : forall file' line',
             spec_header l t file' line' = spec_header l t file line)
    by (intros file' line'; unfold spec_header; cbv zeta; now rewrite Hf').
  assert (Hlen : length (spec_header l t file line)
       = (length (prefix l)
          + (if has (flag l) Ldate then 11 else 0)
          + (if has (flag l) Lmicroseconds then 16
             else if has (flag l) Ltime then 9 else 0))%nat).
  { unfold spec_header, spec_date, spec_clock. cbv zeta. rewrite Hf'.
    destruct (Date (header_time l t)) as [[y m] d].
    destruct (Clock (header_time l t)) as [[hh mi] ss].
    destruct (has (flag l) Lmsgprefix), (has (flag l) Ldate),
      (has (flag l) Ltime), (has (flag l) Lmicroseconds); cbn [orb];
      rewrite ?append_length, ?fixed_length; cbn [length]; lia. }
  split; [|split].
  - intros file' line' b. rewrite <- (Hs file' line').
    apply formatHeader_spec; [exact Hy|].
    intro H. rewrite H in Hf'. discriminate.
  - exact Hlen.
  - intro Hstd. rewrite Hlen, Hstd.
    change (has LstdFlags Ldate) with true.
    change (has LstdFlags Lmicroseconds) with false.
    change (has LstdFlags Ltime) with true. cbv iota. lia.
Qed.

(** ** The file name kept by [Lshortfile] *)

(** A path either has no separator or splits at its last one. *)
Lemma last_separator (s : string) :
  no_slash s = true
  \/ exists dir base : string, s = dir ++ "/" ++ base /\ no_slash base = true.
Proof.
  induction s as [|c s [IH|(dir & base & -> & Hb)]].
  - now left.
  - destruct (Ascii.eqb c slash) eqn:Hc.
    + right. apply Ascii.eqb_eq in Hc. subst c. now exists "", s.
    + left. cbn [no_slash]. now rewrite Hc, IH.
  - right. now exists (String c dir), base.
Qed.

Lemma short_loop_head (c : ascii) (base : string) :
  no_slash base = true ->
  forall m : nat, short_loop (String c base) m = String c base.
Proof.
  intros Hbase. induction m as [|m IH]; [reflexivity|].
  rewrite short_loop_step; [exact IH|]. cbn [get].
  destruct (get m base) as [x|] eqn:Hg; [|exact I].
  exact (no_slash_get base Hbase m x Hg).
Qed.

(** What [shorten] returns, for every path. *)
Lemma shorten_cases (file : string) :
  (shorten file = file
   /\ forall (k : nat) (c : ascii),
        get (S k) file = Some c -> Ascii.eqb c slash = false)
  \/ exists dir base : string,
       dir <> "" /\ no_slash base = true
       /\ file = dir ++ "/" ++ base /\ shorten file = base.
Proof.
  destruct file as [|c rest].
  - left. split; [reflexivity | discriminate].
  - destruct (last_separator rest) as [Hn|(dir & base & -> & Hb)].
    + left. split; [now apply short_loop_head|].
      intros k x Hg. exact (no_slash_get rest Hn k x Hg).
    + right. exists (String c dir), base.
      split; [discriminate|]. split; [exact Hb|]. split; [reflexivity|].
      change (String c (dir ++ "/" ++ base))
        with (String c dir ++ "/" ++ base).
      unfold shorten.
      replace (length (String c dir ++ "/" ++ base) - 1)%nat
        with (length (String c dir) + length base)%nat
        by (rewrite !append_length; simpl; lia).
      apply short_loop_base; [discriminate | exact Hb | lia].
Qed.

Lemma shorten_no_slash (s : string) : no_slash s = true -> shorten s = s.
Proof.
  intro H. destruct s as [|c r]; [reflexivity|].
  cbn [no_slash] in H. apply andb_true_iff in H as [_ H].
  now apply short_loop_head.
Qed.

(** X9: for every path, the name [Lshortfile] prints is the end of the
    path, holds no separator after its first byte, and is left as it is
    when shortened again. *)
Theorem shorten_suffix (file : string) :
  (exists pre : string, file = pre ++ shorten file)
  /\ (forall (k : nat) (c : ascii),
        get (S k) (shorten file) = Some c -> c <> slash)
  /\ shorten (shorten file) = shorten file.
Proof.
  destruct (shorten_cases file)
    as [[Heq Hns]|(dir & base & Hd & Hb & Hf & Hs)].
  - rewrite Heq. split; [now exists ""|]. split; [|exact Heq].
    intros k c Hg ->. apply Hns in Hg. unfold slash in Hg.
    now rewrite Ascii.eqb_refl in Hg.
  - rewrite Hs. split; [exists (dir ++ "/"); now rewrite Hf, append_assoc|].
    split; [|now apply shorten_no_slash].
    intros k c Hg ->. apply (no_slash_get base Hb) in Hg.
    unfold slash in Hg. now rewrite Ascii.eqb_refl in Hg.
Qed.

(** ** [Output] *)


(** X11: [Output] reads the clock first and writes last; in between it asks
    [runtime.Caller] for the frame at [calldepth], once, when a file flag
    is set, and not at all otherwise. *)
Theorem Output_calls (st : Stack) (clock : Time) (l : Logger)
    (functionName color : string) (err : error) (calldepth : Z) (s : string)
    (tr : list Event) :
  exists (r : Logger * error) (p : string) (evs : list Event),
    Output st clock l functionName color err calldepth s tr
    = Some (r, (tr ++ evs)%list)
    /\ evs = ([EvNow]
              ++ (if has (flag l) Lshortfile || has (flag l) Llongfile
                  then [EvCaller calldepth] else [])
              ++ [EvWrite (out l) p])%list
    /\ captures evs = (if has (flag l) Lshortfile || has (flag l) Llongfile
                       then [calldepth] else []).
Proof.
  destruct (formatHeader_defined l clock (fst (call_site st l calldepth))
              (snd (call_site st l calldepth))) as [h Hh].
  eexists. exists (line_bytes color h s). eexists.
  split; [exact (Output_run st clock l functionName color err calldepth
                   s h tr Hh)|].
  rewrite has_lor.
  destruct (has (flag l) Lshortfile || has (flag l) Llongfile);
    split; reflexivity.
Qed.

(** X12: [Output] does not look at the discard flag: on a Logger whose
    sink is [io.Discard] it formats the line all the same, leaves it in
    [buf], hands it to [io.Discard] and returns no error. *)
Theorem Output_on_Discard (st : Stack) (clock : Time) (l : Logger)
    (functionName color : string) (err : error) (calldepth : Z) (s : string)
    (tr : list Event) :
  out l = Discard ->
  exists (h : string) (evs : list Event),
    Output st clock l functionName color err calldepth s tr
    = Some ((set_buf l (line_bytes color h s), None), (tr ++ evs)%list)
    /\ writes evs = [(Discard, line_bytes color h s)]
    /\ (6 <= length (line_bytes color h s))%nat.
Proof.
  intro Hout.
  destruct (formatHeader_defined l clock (fst (call_site st l calldepth))
              (snd (call_site st l calldepth))) as [h Hh].
  exists h. eexists. split; [|split].
  - rewrite (Output_run st clock l functionName color err calldepth s h tr Hh).
    cbv zeta. rewrite Hout. reflexivity.
  - destruct (has (flag l) (Z.lor Lshortfile Llongfile)); reflexivity.
  - unfold line_bytes. rewrite !append_length. simpl. lia.
Qed.

(** X13: when a file flag is set and the frame at [calldepth] exists, the
    header of the line ends with the file of that frame (shortened with
    [Lshortfile]), its line number without padding, and the prefix when
    [Lmsgprefix] is set. *)
Theorem Output_caller_found (st : Stack) (clock : Time) (l : Logger)
    (functionName color : string) (err : error) (calldepth : Z) (s : string)
    (tr : list Event) (f : Frame) :
  has (flag l) (Z.lor Lshortfile Llongfile) = true ->
  st calldepth = Some f -> 0 <= fr_line f < 2 ^ 63 ->
  exists pre : string,
    let h := pre ++ (header_path l (fr_file f) ++ ":" ++ decimal (fr_line f)
                     ++ ": ")
                 ++ (if has (flag l) Lmsgprefix then prefix l else "") in
    formatHeader l clock (fr_file f) (fr_line f) "" = Some h
    /\ Output st clock l functionName color err calldepth s tr
       = Some ((set_buf l (line_bytes color h s),
                answer (out l) (line_bytes color h s)),
               (tr ++ [EvNow; EvCaller calldepth;
                       EvWrite (out l) (line_bytes color h s)])%list).
Proof.
  intros Hf Hst Hl.
  destruct (formatHeader_file l clock (fr_file f) (fr_line f) Hf Hl)
    as [pre Hpre].
  exists pre. intro h. split; [exact Hpre|].
  assert (Hc : call_site st l calldepth = (fr_file f, fr_line f))
    by (unfold call_site; now rewrite Hf, Hst).
  rewrite (Output_run st clock l functionName color err calldepth s h tr)
    by (rewrite Hc; exact Hpre).
  now rewrite Hf.
Qed.

(** ** The level functions, when the Logger is not discarding *)

Lemma Println_run (st : Stack) (clock : Time) (std : Logger) (v : list any)
    (tr : list Event) (h : string) :
  discarding std = false ->
  formatHeader std clock (fst (call_site st std 1))
    (snd (call_site st std 1)) "" = Some h ->
  let p := line_bytes White h
             (Println_body (fst (caller_seen st)) (snd (caller_seen st))
                (funcName (own_pc st)) (Sprint v)) in
  Println st clock std v tr
  = Some (set_buf std p,
          (tr ++ [EvCaller 1; EvCaller 1; EvFuncForPC (own_pc st);
                  EvCaller 1; EvFuncForPC (own_pc st); EvSprint v]
              ++ Output_events std p)%list).
Proof.
  intros Hd Hh. cbv zeta.
  cbv [Println getCurrentFuncName bind ret emit runtime_Caller
       runtime_FuncForPC_Name fmt_Sprint].
  rewrite Hd. unfold caller_seen, own_pc, Output_events, line_bytes.
  change (enter self_getCurrentFuncName st 1) with (st 0).
  change (enter self_fn st 1) with (st 0).
  destruct (st 1) as [f|], (st 0) as [g|]; cbn [fst snd];
    rewrite (Output_run _ _ _ _ _ _ _ _ h) by exact Hh;
    rewrite <- !app_assoc; reflexivity.
Qed.

Lemma Info_run (st : Stack) (clock : Time) (std : Logger) (v : list any)
    (tr : list Event) (h : string) :
  discarding std = false ->
  formatHeader std clock (fst (call_site st std 1))
    (snd (call_site st std 1)) "" = Some h ->
  let p := line_bytes Blue h
             (Info_body (fst (caller_seen st)) (snd (caller_seen st))
                (Sprint v)) in
  Info st clock std v tr
  = Some (set_buf std p,
          (tr ++ [EvCaller 1; EvFuncForPC (own_pc st); EvCaller 1; EvSprint v]
              ++ Output_events std p)%list).
Proof.
  intros Hd Hh. cbv zeta.
  cbv [Info getCurrentFuncName bind ret emit runtime_Caller
       runtime_FuncForPC_Name fmt_Sprint].
  rewrite Hd. unfold caller_seen, own_pc, Output_events, line_bytes.
  change (enter self_getCurrentFuncName st 1) with (st 0).
  destruct (st 1) as [f|], (st 0) as [g|]; cbn [fst snd];
    rewrite (Output_run _ _ _ _ _ _ _ _ h) by exact Hh;
    rewrite <- !app_assoc; reflexivity.
Qed.

Lemma Warning_run (st : Stack) (clock : Time) (std : Logger) (v : list any)
    (tr : list Event) (h : string) :
  discarding std = false ->
  formatHeader std clock (fst (call_site st std 1))
    (snd (call_site st std 1)) "" = Some h ->
  let p := line_bytes Yellow h
             (Warning_body (fst (caller_seen st)) (snd (caller_seen st))
                (Sprint v)) in
  Warning st clock std v tr
  = Some (set_buf std p,
          (tr ++ [EvCaller 1; EvCaller 1; EvFuncForPC (own_pc st); EvSprint v]
              ++ Output_events std p)%list).
Proof.
  intros Hd Hh. cbv zeta.
  cbv [Warning getCurrentFuncName bind ret emit runtime_Caller
       runtime_FuncForPC_Name fmt_Sprint].
  rewrite Hd. unfold caller_seen, own_pc, Output_events, line_bytes.
  change (enter self_getCurrentFuncName st 1) with (st 0).
  destruct (st 1) as [f|], (st 0) as [g|]; cbn [fst snd];
    rewrite (Output_run _ _ _ _ _ _ _ _ h) by exact Hh;
    rewrite <- !app_assoc; reflexivity.
Qed.

(** [Error], with the calls it makes spelled out. *)
Lemma Error_calls (st : Stack) (clock : Time) (std : Logger) (msg : string)
    (err : error) (tr : list Event) (h : string) :
  discarding std = false ->
  formatHeader std clock (fst (call_site st std 1))
    (snd (call_site st std 1)) "" = Some h ->
  let color := match err with Some _ => Red | None => Green end in
  let tail := match err with Some e => Error_text e | None => "NO ERROR" end in
  let p := line_bytes color h
             (Error_body (fst (caller_seen st)) (snd (caller_seen st))
                color msg tail) in
  Error st clock std msg err tr
  = Some (set_buf std p,
          (tr ++ [EvCaller 1; EvCaller 1; EvFuncForPC (own_pc st)]
              ++ Output_events std p)%list).
Proof.
  intros Hd Hh. cbv zeta.
  cbv [Error getCurrentFuncName bind ret emit runtime_Caller
       runtime_FuncForPC_Name].
  rewrite Hd. unfold caller_seen, own_pc, Output_events, line_bytes.
  change (enter self_getCurrentFuncName st 1) with (st 0).
  destruct (st 1) as [f|], err as [e|], (st 0) as [g|]; cbn [fst snd];
    rewrite (Output_run _ _ _ _ _ _ _ _ h) by exact Hh;
    rewrite <- !app_assoc; reflexivity.
Qed.

Lemma writes_Output_events (std : Logger) (p : string) (pre : list Event) :
  writes pre = [] ->
  writes (pre ++ Output_events std p) = [(out std, p)].
Proof.
  intro Hpre. unfold writes in *. rewrite flat_map_app, Hpre.
  unfold Output_events.
  destruct (has (flag std) (Z.lor Lshortfile Llongfile)); reflexivity.
Qed.

(** X14: while the Logger is not discarding, [Println] makes one [Write]
    of a line in the color [White]; the [FUNCTION] field of the message is
    the name of [Println] itself, which is also the function name it hands
    to [Output], and not the name of its caller; it asks [runtime.Caller]
    for frame 1 three times, and [Output] asks for frame 2 when a file flag
    is set. *)
Theorem Println_line (st : Stack) (clock : Time) (std : Logger) (v : list any)
    (tr : list Event) :
  discarding std = false ->
  exists (h : string) (evs : list Event),
    formatHeader std clock (fst (call_site st std 1))
      (snd (call_site st std 1)) "" = Some h
    /\ let p := line_bytes White h
                  (Println_body (fst (caller_seen st)) (snd (caller_seen st))
                     (funcName (own_pc st)) (Sprint v)) in
       Println st clock std v tr = Some (set_buf std p, (tr ++ evs)%list)
       /\ writes evs = [(out std, p)]
       /\ captures evs
          = ([1; 1; 1]
             ++ (if has (flag std) Lshortfile || has (flag std) Llongfile
                 then [2] else []))%list.
Proof.
  intro Hd.
  destruct (formatHeader_defined std clock (fst (call_site st std 1))
              (snd (call_site st std 1))) as [h Hh].
  exists h. eexists. split; [exact Hh|]. cbv zeta.
  split; [exact (Println_run st clock std v tr h Hd Hh)|].
  split; [now apply writes_Output_events|].
  unfold Output_events. rewrite has_lor.
  destruct (has (flag std) Lshortfile || has (flag std) Llongfile);
    reflexivity.
Qed.

(** X15: while the Logger is not discarding, [Info] makes one [Write] of a
    line in the color [Blue] whose message gives the caller's file and line
    and the operands as [fmt.Sprint] renders them, between [Blue] and the
    reset sequence. *)
Theorem Info_line (st : Stack) (clock : Time) (std : Logger) (v : list any)
    (tr : list Event) :
  discarding std = false ->
  exists (h : string) (evs : list Event),
    formatHeader std clock (fst (call_site st std 1))
      (snd (call_site st std 1)) "" = Some h
    /\ let p := line_bytes Blue h
                  (Info_body (fst (caller_seen st)) (snd (caller_seen st))
                     (Sprint v)) in
       Info st clock std v tr = Some (set_buf std p, (tr ++ evs)%list)
       /\ writes evs = [(out std, p)]
       /\ captures evs
          = ([1; 1]
             ++ (if has (flag std) Lshortfile || has (flag std) Llongfile
                 then [2] else []))%list.
Proof.
  intro Hd.
  destruct (formatHeader_defined std clock (fst (call_site st std 1))
              (snd (call_site st std 1))) as [h Hh].
  exists h. eexists. split; [exact Hh|]. cbv zeta.
  split; [exact (Info_run st clock std v tr h Hd Hh)|].
  split; [now apply writes_Output_events|].
  unfold Output_events. rewrite has_lor.
  destruct (has (flag std) Lshortfile || has (flag std) Llongfile);
    reflexivity.
Qed.

(** X16: while the Logger is not discarding, [Warning] makes one [Write]
    of a line in the color [Yellow] whose message starts with the
    [WARNING LOG] banner and gives the caller's file and line and the
    operands as [fmt.Sprint] renders them. *)
Theorem Warning_line (st : Stack) (clock : Time) (std : Logger) (v : list any)
    (tr : list Event) :
  discarding std = false ->
  exists (h : string) (evs : list Event),
    formatHeader std clock (fst (call_site st std 1))
      (snd (call_site st std 1)) "" = Some h
    /\ let p := line_bytes Yellow h
                  (Warning_body (fst (caller_seen st)) (snd (caller_seen st))
                     (Sprint v)) in
       Warning st clock std v tr = Some (set_buf std p, (tr ++ evs)%list)
       /\ writes evs = [(out std, p)]
       /\ captures evs
          = ([1; 1]
             ++ (if has (flag std) Lshortfile || has (flag std) Llongfile
                 then [2] else []))%list.
Proof.
  intro Hd.
  destruct (formatHeader_defined std clock (fst (call_site st std 1))
              (snd (call_site st std 1))) as [h Hh].
  exists h. eexists. split; [exact Hh|]. cbv zeta.
  split; [exact (Warning_run st clock std v tr h Hd Hh)|].
  split; [now apply writes_Output_events|].
  unfold Output_events. rewrite has_lor.
  destruct (has (flag std) Lshortfile || has (flag std) Llongfile);
    reflexivity.
Qed.

(** A message that ends with a reset sequence which is not empty and does
    not end with a newline gets a newline, so that the line ends with the
    reset sequence, a newline and the reset sequence again. *)
Lemma ends_with_newline_app (x r : string) :
  r <> "" -> ends_with_newline (x ++ r) = ends_with_newline r.
Proof.
  intro Hr. destruct (string_snoc r) as [->|(y & c & ->)]; [easy|].
  now rewrite <- append_assoc, !ends_with_newline_snoc.
Qed.

Lemma line_bytes_reset (color h b : string) :
  Reset <> "" -> ends_with_newline Reset = false ->
  line_bytes color h (b ++ Reset)
  = (color ++ "TIME: " ++ h ++ b) ++ Reset ++ nl ++ Reset.
Proof.
  intros Hr He. unfold line_bytes.
  rewrite needs_newline_ends, ends_with_newline_app, He by exact Hr.
  cbn [negb]. now rewrite !append_assoc.
Qed.

(** X17: when the reset sequence is not empty and does not end with a
    newline, every line a level function writes ends with the reset
    sequence, one newline, and the reset sequence again: the newline
    [Output] adds goes between the reset of the message and the reset of
    the line. *)
Theorem level_lines_end (st : Stack) (clock : Time) (std : Logger)
    (v : list any) (msg : string) (err : error) (tr : list Event) :
  Reset <> "" -> ends_with_newline Reset = false ->
  discarding std = false ->
  (exists (x : string) (evs : list Event),
      Println st clock std v tr
      = Some (set_buf std (x ++ Reset ++ nl ++ Reset), (tr ++ evs)%list)
      /\ writes evs = [(out std, x ++ Reset ++ nl ++ Reset)])
  /\ (exists (x : string) (evs : list Event),
      Info st clock std v tr
      = Some (set_buf std (x ++ Reset ++ nl ++ Reset), (tr ++ evs)%list)
      /\ writes evs = [(out std, x ++ Reset ++ nl ++ Reset)])
  /\ (exists (x : string) (evs : list Event),
      Error st clock std msg err tr
      = Some (set_buf std (x ++ Reset ++ nl ++ Reset), (tr ++ evs)%list)
      /\ writes evs = [(out std, x ++ Reset ++ nl ++ Reset)])
  /\ (exists (x : string) (evs : list Event),
      Warning st clock std v tr
      = Some (set_buf std (x ++ Reset ++ nl ++ Reset), (tr ++ evs)%list)
      /\ writes evs = [(out std, x ++ Reset ++ nl ++ Reset)]).
Proof.
  intros Hr He Hd.
  destruct (formatHeader_defined std clock (fst (call_site st std 1))
              (snd (call_site st std 1))) as [h Hh].
  split; [|split; [|split]].
  - pose proof (Println_run st clock std v tr h Hd Hh) as H. cbv zeta in H.
    unfold Println_body in H.
    repeat rewrite <- append_assoc in H.
    rewrite line_bytes_reset in H by assumption.
    eexists. eexists. split; [exact H|]. now apply writes_Output_events.
  - pose proof (Info_run st clock std v tr h Hd Hh) as H. cbv zeta in H.
    unfold Info_body in H.
    repeat rewrite <- append_assoc in H.
    rewrite line_bytes_reset in H by assumption.
    eexists. eexists. split; [exact H|]. now apply writes_Output_events.
  - pose proof (Error_calls st clock std msg err tr h Hd Hh) as H.
    cbv zeta in H. unfold Error_body in H.
    repeat rewrite <- append_assoc in H.
    rewrite line_bytes_reset in H by assumption.
    eexists. eexists. split; [exact H|]. now apply writes_Output_events.
  - pose proof (Warning_run st clock std v tr h Hd Hh) as H. cbv zeta in H.
    unfold Warning_body in H.
    repeat rewrite <- append_assoc in H.
    rewrite line_bytes_reset in H by assumption.
    eexists. eexists. split; [exact H|]. now apply writes_Output_events.
Qed.

Lemma level_lines_run (st : Stack) (clock : Time) (std : Logger)
    (v : list any) (msg : string) (err : error) (tr : list Event)
    (h : string) :
  discarding std = false ->
  formatHeader std clock (fst (call_site st std 1))
    (snd (call_site st std 1)) "" = Some h ->
  level_lines st clock std v msg err tr h
    (fst (caller_seen st)) (snd (caller_seen st)).
Proof.
  intros Hd Hh. unfold level_lines. cbv zeta.
  split; [|split; [|split]]; eexists.
  - split; [exact (Println_run st clock std v tr h Hd Hh)|].
    now apply writes_Output_events.
  - split; [exact (Info_run st clock std v tr h Hd Hh)|].
    now apply writes_Output_events.
  - split; [exact (Error_calls st clock std msg err tr h Hd Hh)|].
    now apply writes_Output_events.
  - split; [exact (Warning_run st clock std v tr h Hd Hh)|].
    now apply writes_Output_events.
Qed.

(** X18: with a file flag set, the frame [Output] finds two levels up is
    the caller of the level function: the header of the line and the
    [PATH] and [LOG LINE] fields of the message give the file and the line
    of one and the same frame, for each of the four level functions. *)
Theorem level_location (st : Stack) (clock : Time) (std : Logger)
    (v : list any) (msg : string) (err : error) (tr : list Event)
    (f : Frame) :
  discarding std = false ->
  has (flag std) (Z.lor Lshortfile Llongfile) = true ->
  st 1 = Some f -> 0 <= fr_line f < 2 ^ 63 ->
  exists pre : string,
    level_lines st clock std v msg err tr
      (pre ++ (header_path std (fr_file f) ++ ":" ++ decimal (fr_line f)
               ++ ": ")
           ++ (if has (flag std) Lmsgprefix then prefix std else ""))
      (fr_file f) (fr_line f).
Proof.
  intros Hd Hf Hst Hl.
  destruct (formatHeader_file std clock (fr_file f) (fr_line f) Hf Hl)
    as [pre Hpre].
  exists pre.
  assert (Hc : call_site st std 1 = (fr_file f, fr_line f))
    by (unfold call_site; now rewrite Hf, Hst).
  assert (Hs : caller_seen st = (fr_file f, fr_line f))
    by (unfold caller_seen; now rewrite Hst).
  assert (Hh : formatHeader std clock (fst (call_site st std 1))
                  (snd (call_site st std 1)) ""
                = Some (pre ++ (header_path std (fr_file f) ++ ":"
                                ++ decimal (fr_line f) ++ ": ")
                            ++ (if has (flag std) Lmsgprefix then prefix std
                                else "")))
    by (rewrite Hc; exact Hpre).
  pose proof (level_lines_run st clock std v msg err tr _ Hd Hh) as H.
  now rewrite Hs in H.
Qed.


(** What a level function does when the Logger is discarding. *)
Lemma level_discard_run (st : Stack) (clock : Time) (std : Logger)
    (v : list any) (msg : string) (err : error) (tr : list Event) :
  discarding std = true ->
  let evs := [EvCaller 1; EvCaller 1; EvFuncForPC (own_pc st)] in
  Println st clock std v tr = Some (std, (tr ++ evs)%list)
  /\ Info st clock std v tr
     = Some (std, (tr ++ [EvCaller 1; EvFuncForPC (own_pc st); EvCaller 1])%list)
  /\ Error st clock std msg err tr = Some (std, (tr ++ evs)%list)
  /\ Warning st clock std v tr = Some (std, (tr ++ evs)%list).
Proof.
  intro Hd. cbv zeta.
  repeat split;
    cbv [Println Info Error Warning getCurrentFuncName bind ret emit
         runtime_Caller runtime_FuncForPC_Name];
    rewrite Hd; unfold own_pc;
    change (enter self_getCurrentFuncName st 1) with (st 0);
    destruct (st 1) as [f|], (st 0) as [g|];
    rewrite trace_3; reflexivity.
Qed.

Lemma Println_skip (st : Stack) (clock : Time) (std : Logger) (v : list any)
    (tr : list Event) :
  discarding std = true ->
  Println st clock std v tr
  = Some (std, (tr ++ [EvCaller 1; EvCaller 1; EvFuncForPC (own_pc st)])%list).
Proof.
  intro Hd. exact (proj1 (level_discard_run st clock std v "" None tr Hd)).
Qed.

Lemma Info_skip (st : Stack) (clock : Time) (std : Logger) (v : list any)
    (tr : list Event) :
  discarding std = true ->
  Info st clock std v tr
  = Some (std, (tr ++ [EvCaller 1; EvFuncForPC (own_pc st); EvCaller 1])%list).
Proof.
  intro Hd.
  exact (proj1 (proj2 (level_discard_run st clock std v "" None tr Hd))).
Qed.

Lemma Error_skip (st : Stack) (clock : Time) (std : Logger) (msg : string)
    (err : error) (tr : list Event) :
  discarding std = true ->
  Error st clock std msg err tr
  = Some (std, (tr ++ [EvCaller 1; EvCaller 1; EvFuncForPC (own_pc st)])%list).
Proof.
  intro Hd.
  exact (proj1 (proj2 (proj2
           (level_discard_run st clock std [] msg err tr Hd)))).
Qed.

Lemma Warning_skip (st : Stack) (clock : Time) (std : Logger) (v : list any)
    (tr : list Event) :
  discarding std = true ->
  Warning st clock std v tr
  = Some (std, (tr ++ [EvCaller 1; EvCaller 1; EvFuncForPC (own_pc st)])%list).
Proof.
  intro Hd.
  exact (proj2 (proj2 (proj2
           (level_discard_run st clock std v "" None tr Hd)))).
Qed.

Lemma level_effect_all (st : Stack) (clock : Time) (std : Logger)
    (v : list any) (msg : string) (err : error) (tr : list Event) :
  level_effect std tr (Println st clock std v tr)
  /\ level_effect std tr (Info st clock std v tr)
  /\ level_effect std tr (Error st clock std msg err tr)
  /\ level_effect std tr (Warning st clock std v tr).
Proof.
  unfold level_effect. destruct (discarding std) eqn:Hd.
  - destruct (level_discard_run st clock std v msg err tr Hd)
      as (H1 & H2 & H3 & H4). cbv zeta in *.
    repeat split; exists std; eexists;
      (split; [eassumption|]); now repeat split.
  - destruct (formatHeader_defined std clock (fst (call_site st std 1))
                (snd (call_site st std 1))) as [h Hh].
    destruct (level_lines_run st clock std v msg err tr h Hd Hh)
      as ((e1 & H1 & W1) & (e2 & H2 & W2) & (e3 & H3 & W3) & (e4 & H4 & W4)).
    repeat split; eexists; eexists;
      (split; [eassumption|]);
      (repeat (split; [reflexivity|])); (split; [assumption|]);
      intro; discriminate.
Qed.


(** What a level function hands to the sink of a Logger whose discard flag
    agrees with its sink. *)
Lemma level_effect_sink (std : Logger) (tr : list Event)
    (r : option (Logger * list Event)) :
  discard_invariant std -> level_effect std tr r ->
  exists (std' : Logger) (evs : list Event),
    r = Some (std', (tr ++ evs)%list)
    /\ prefix std' = prefix std /\ flag std' = flag std
    /\ out std' = out std /\ discard_invariant std'
    /\ writes evs = match out std with
                    | Discard => []
                    | Sink id => [(Sink id, buf std')]
                    end.
Proof.
  intros Hinv (std' & evs & Hr & Hp & Hf & Ho & Hi & Hw & _).
  exists std', evs. repeat (split; [assumption|]). split.
  - unfold discard_invariant in *. now rewrite Hi, Ho.
  - rewrite Hw. unfold discarding. unfold discard_invariant in Hinv.
    destruct (isDiscard std =? 0) eqn:Hz; cbn [negb].
    + apply Z.eqb_eq in Hz.
      destruct (out std) as [|id] eqn:Hout; [|reflexivity].
      exfalso. now apply (proj2 Hinv).
    + apply Z.eqb_neq in Hz. now rewrite (proj1 Hinv Hz).
Qed.

(** X21: on a Logger whose discard flag agrees with its sink, a level
    function writes exactly when the sink is not [io.Discard]: nothing to
    [io.Discard], one line to any other sink; and the flag still agrees
    with the sink afterwards. *)
Theorem level_functions_sink (st : Stack) (clock : Time) (std : Logger)
    (v : list any) (msg : string) (err : error) (tr : list Event)
    (r : option (Logger * list Event)) :
  discard_invariant std ->
  In r [Println st clock std v tr; Info st clock std v tr;
        Error st clock std msg err tr; Warning st clock std v tr] ->
  exists (std' : Logger) (evs : list Event),
    r = Some (std', (tr ++ evs)%list)
    /\ prefix std' = prefix std /\ flag std' = flag std
    /\ out std' = out std /\ discard_invariant std'
    /\ writes evs = match out std with
                    | Discard => []
                    | Sink id => [(Sink id, buf std')]
                    end.
Proof.
  intros Hinv Hr. apply level_effect_sink; [exact Hinv|].
  destruct (level_effect_all st clock std v msg err tr)
    as (H1 & H2 & H3 & H4).
  destruct Hr as [<-|[<-|[<-|[<-|[]]]]]; assumption.
Qed.

Lemma SetOutput_invariant (l : Logger) (w : Writer) :
  discard_invariant (SetOutput l w).
Proof.
  destruct w; unfold discard_invariant; simpl; split; intro H;
    try discriminate; try reflexivity; now destruct H.
Qed.

Lemma New_invariant (w : Writer) (pfx : string) (flg : Z) :
  discard_invariant (New w pfx flg).
Proof.
  destruct w; unfold discard_invariant; simpl; split; intro H;
    try discriminate; try reflexivity; now destruct H.
Qed.

(** X22: [SetOutput] composes with the level functions.  The last
    [SetOutput] decides: two in a row leave the Logger as the second alone
    does.  Whatever the Logger was before, also with a discard flag that
    did not agree with its sink, after [SetOutput(w)] a level function
    writes nothing when [w] is [io.Discard] and one line to [w] otherwise,
    under the prefix and the flags the Logger had. *)
Theorem SetOutput_then_log (st : Stack) (clock : Time) (std : Logger)
    (w : Writer) (v : list any) (msg : string) (err : error)
    (tr : list Event) (r : option (Logger * list Event)) :
  (forall w0 : Writer, SetOutput (SetOutput std w0) w = SetOutput std w)
  /\ (In r [Println st clock (SetOutput std w) v tr;
            Info st clock (SetOutput std w) v tr;
            Error st clock (SetOutput std w) msg err tr;
            Warning st clock (SetOutput std w) v tr] ->
      exists (std' : Logger) (evs : list Event),
        r = Some (std', (tr ++ evs)%list)
        /\ prefix std' = prefix std /\ flag std' = flag std
        /\ out std' = w
        /\ writes evs = match w with
                        | Discard => []
                        | Sink id => [(Sink id, buf std')]
                        end).
Proof.
  split; [reflexivity|]. intro Hr.
  destruct (level_effect_all st clock (SetOutput std w) v msg err tr)
    as (H1 & H2 & H3 & H4).
  assert (He : level_effect (SetOutput std w) tr r)
    by (destruct Hr as [<-|[<-|[<-|[<-|[]]]]]; assumption).
  destruct (level_effect_sink _ _ _ (SetOutput_invariant std w) He)
    as (std' & evs & Hr' & Hp & Hf & Ho & _ & Hw).
  exists std', evs. now repeat split.
Qed.

(** ** The mutex *)

(** X23: in every state that interleaved calls of [Output] reach, at most
    one call is between a [Lock] and the [Unlock] that follows it; a call
    that is inside [runtime.Caller] does not hold the mutex; and when all
    calls have returned the mutex is free. *)
Theorem mutex_discipline (l : Logger) (calls : nat -> Call) (N : nat)
    (sg : State) :
  steps l calls N (init l) sg ->
  (forall i j : nat,
      (i < N)%nat -> (j < N)%nat ->
      holds (lo_pc (locals sg i)) = true ->
      holds (lo_pc (locals sg j)) = true -> i = j)
  /\ (forall i : nat,
        (i < N)%nat -> lo_pc (locals sg i) = PCaller ->
        sh_mu (shared sg) <> Some i)
  /\ (all_done N sg -> sh_mu (shared sg) = None).
Proof.
  intro Hsteps.
  destruct (steps_Inv l calls N sg Hsteps) as (Hmu & Hloc & _).
  split; [|split].
  - intros i j Hi Hj Hhi Hhj.
    apply (proj1 (Hloc i Hi)) in Hhi. apply (proj1 (Hloc j Hj)) in Hhj.
    congruence.
  - intros i Hi Hpc Hm.
    apply (proj1 (Hloc i Hi)) in Hm. now rewrite Hpc in Hm.
  - intro Hd. destruct (sh_mu (shared sg)) as [i|] eqn:Hm; [|reflexivity].
    pose proof (Hmu i eq_refl) as Hi.
    apply (proj1 (Hloc i Hi)) in Hm. now rewrite (Hd i Hi) in Hm.
Qed.

(** ** The example program *)

Lemma main_header_eq (std : Logger) (t : Time) (st : Stack) (f self : Frame)
    (n : Z) :
  st 0 = Some f ->
  formatHeader std t (fst (call_site (enter self (at_line st n)) std 1))
    (snd (call_site (enter self (at_line st n)) std 1)) ""
  = Some (main_header std t f n).
Proof.
  intro Hst. unfold main_header, call_site.
  change (enter self (at_line st n) 1) with (at_line st n 0).
  unfold at_line. cbn [Z.eqb]. rewrite Hst.
  destruct (has (flag std) (Z.lor Lshortfile Llongfile)); cbn [fst snd];
    apply header_of_eq.
Qed.

Lemma main_seen (st : Stack) (f self : Frame) (n : Z) :
  st 0 = Some f ->
  caller_seen (enter self (at_line st n)) = (fr_file f, n).
Proof.
  intro Hst. unfold caller_seen.
  change (enter self (at_line st n) 1) with (at_line st n 0).
  unfold at_line. cbn [Z.eqb]. now rewrite Hst.
Qed.

(** X24: the example program.  While the Logger is not discarding, [main]
    makes five writes on its sink, in this order: the [Println] line in
    [White], the [Error] line of the cause [Xato] in [Red], the [Error]
    line without a cause in [Green], the [Info] line in [Blue] and the
    [Warning] line in [Yellow]; the messages report the file of [main] and
    the lines 11 to 15; the buffer is left holding the last line.  While
    the Logger is discarding, [main] writes nothing and leaves the Logger
    as it was. *)
Theorem main_lines (box : string -> any)
    (self_Println self_Error self_Info self_Warning : Frame)
    (st : Stack) (t1 t2 t3 t4 t5 : Time) (std : Logger) (tr : list Event)
    (f : Frame) :
  st 0 = Some f ->
  exists evs : list Event,
    let p1 := line_bytes White (main_header std t1 f 11)
                (Println_body (fr_file f) 11 (funcName (fr_pc self_Println))
                   (Sprint [box "Salom hammaga"])) in
    let p2 := line_bytes Red (main_header std t2 f 12)
                (Error_body (fr_file f) 12 Red "shu joyda" "Xato") in
    let p3 := line_bytes Green (main_header std t3 f 13)
                (Error_body (fr_file f) 13 Green "Color" "NO ERROR") in
    let p4 := line_bytes Blue (main_header std t4 f 14)
                (Info_body (fr_file f) 14
                   (Sprint [box "Salom Mani Zo'r narsam bor"])) in
    let p5 := line_bytes Yellow (main_header std t5 f 15)
                (Warning_body (fr_file f) 15
                   (Sprint [box "Shu yerni qarab ketish yodizdan chiqamsin"]))
    in
    main box self_Println self_Error self_Info self_Warning st
      t1 t2 t3 t4 t5 std tr
    = Some ((if discarding std then std else set_buf std p5),
            (tr ++ evs)%list)
    /\ writes evs
       = (if discarding std then []
          else [(out std, p1); (out std, p2); (out std, p3); (out std, p4);
                (out std, p5)]).
Proof.
  intro Hst. cbv zeta. unfold main. cbv [bind ret].
  destruct (discarding std) eqn:Hd.
  - rewrite Println_skip by exact Hd.
    rewrite !Error_skip by exact Hd.
    rewrite Info_skip by exact Hd.
    rewrite Warning_skip by exact Hd.
    rewrite <- !app_assoc. eexists. split; reflexivity.
  - rewrite (Println_run _ t1 std _ tr _ Hd
               (main_header_eq std t1 st f self_Println 11 Hst)).
    cbv zeta. rewrite (main_seen st f self_Println 11 Hst). cbn [fst snd].
    match goal with
    | |- context [Error ?s t2 ?l ?m ?e ?r] =>
        rewrite (Error_calls s t2 l m e r _ Hd
                   (main_header_eq std t2 st f self_Error 12 Hst))
    end.
    cbv zeta. rewrite (main_seen st f self_Error 12 Hst). cbn [fst snd].
    match goal with
    | |- context [Error ?s t3 ?l ?m ?e ?r] =>
        rewrite (Error_calls s t3 l m e r _ Hd
                   (main_header_eq std t3 st f self_Error 13 Hst))
    end.
    cbv zeta. rewrite (main_seen st f self_Error 13 Hst). cbn [fst snd].
    match goal with
    | |- context [Info ?s t4 ?l ?v ?r] =>
        rewrite (Info_run s t4 l v r _ Hd
                   (main_header_eq std t4 st f self_Info 14 Hst))
    end.
    cbv zeta. rewrite (main_seen st f self_Info 14 Hst). cbn [fst snd].
    match goal with
    | |- context [Warning ?s t5 ?l ?v ?r] =>
        rewrite (Warning_run s t5 l v r _ Hd
                   (main_header_eq std t5 st f self_Warning 15 Hst))
    end.
    cbv zeta. rewrite (main_seen st f self_Warning 15 Hst). cbn [fst snd].
    change (own_pc (enter self_Println (at_line st 11)))
      with (fr_pc self_Println).
    rewrite <- !app_assoc. eexists. split; [reflexivity|].
    unfold writes, Output_events. cbn [set_buf flag out].
    destruct (has (flag std) (Z.lor Lshortfile Llongfile)); reflexivity.
Qed.

End Runtime.

Arguments EvNow {any}.
Arguments EvCaller {any} skip.
Arguments EvFuncForPC {any} pc.
Arguments EvSprint {any} v.
Arguments EvWrite {any} w p.

(** * The answers of the sink *)

Section Answers.

Variables Green Red Yellow Blue White Reset : string.
Variable any : Type.
Variable Sprint : list any -> string.
Variable funcName : Z -> string.
Variables self_Output self_getCurrentFuncName self_fn : Frame.

(** X25: the level functions drop the error [Output] returns: what they
    do, the calls they make and the Logger they leave are the same
    whatever the sinks answer to [Write]. *)
Theorem level_functions_drop_errors
    (sink_write sink_write' : nat -> string -> error)
    (st : Stack) (clock : Time) (std : Logger) (v : list any) (msg : string)
    (err : error) (tr : list (Event any)) :
  Println Green White Reset any Sprint funcName self_Output
    self_getCurrentFuncName self_fn sink_write st clock std v tr
  = Println Green White Reset any Sprint funcName self_Output
      self_getCurrentFuncName self_fn sink_write' st clock std v tr
  /\ Info Blue Reset any Sprint funcName self_Output
       self_getCurrentFuncName sink_write st clock std v tr
     = Info Blue Reset any Sprint funcName self_Output
         self_getCurrentFuncName sink_write' st clock std v tr
  /\ Error Green Red Reset any funcName self_Output
       self_getCurrentFuncName sink_write st clock std msg err tr
     = Error Green Red Reset any funcName self_Output
         self_getCurrentFuncName sink_write' st clock std msg err tr
  /\ Warning Yellow Reset any Sprint funcName self_Output
       self_getCurrentFuncName sink_write st clock std v tr
     = Warning Yellow Reset any Sprint funcName self_Output
         self_getCurrentFuncName sink_write' st clock std v tr.
Proof.
  destruct (discarding std) eqn:Hd.
  - repeat split.
    + now rewrite !Println_skip.
    + now rewrite !Info_skip.
    + now rewrite !Error_skip.
    + now rewrite !Warning_skip.
  - destruct (formatHeader_defined std clock (fst (call_site st std 1))
                (snd (call_site st std 1))) as [h Hh].
    repeat split.
    + now rewrite !(Println_run _ _ _ _ _ _ _ _ _ _ _ _ _ _ _ h Hd Hh).
    + now rewrite !(Info_run _ _ _ _ _ _ _ _ _ _ _ _ _ h Hd Hh).
    + now rewrite !(Error_calls _ _ _ _ _ _ _ _ _ _ _ _ _ _ h Hd Hh).
    + now rewrite !(Warning_run _ _ _ _ _ _ _ _ _ _ _ _ _ h Hd Hh).
Qed.

End Answers.


(** * Closed instances *)

(** Two calls of [Output] from two level functions, picked in turn. *)
Definition ex_calls (i : nat) : Call :=
  mkCall (enter ex_callee ex_stack) t_2024_01_05 "main.main"
    (if (i =? 0)%nat then ansi_Blue else ansi_Yellow) None 2
    (if (i =? 0)%nat then "first" else "second").


(** C2: the message [a] followed by two newlines is accumulated with both
    of them; it is not so that every accumulated line is terminated by
    exactly one newline. *)
Lemma accumulate_two_newlines :
  accumulate string (New (Sink 2) "" 0) t_2024_01_05 "" 0
    ("a" ++ nl ++ nl) []
  = Some (set_buf (New (Sink 2) "" 0) ("a" ++ nl ++ nl), [])
  /\ trailing_newlines ("a" ++ nl ++ nl) = 2%nat
  /\ ~ (forall (s : string) (l' : Logger),
          accumulate string (New (Sink 2) "" 0) t_2024_01_05 "" 0 s []
          = Some (l', []) ->
          trailing_newlines (buf l') = 1%nat).
Proof.
  split; [reflexivity|]. split; [reflexivity|].
  intro H. specialize (H ("a" ++ nl ++ nl) _ eq_refl). discriminate H.
Qed.

Lemma accumulate_newline_witness :
  exists h : string,
    formatHeader ex_std t_2024_01_05 "" 0 "" = Some h
    /\ trailing_newlines (h ++ "msg" ++ nl) = 1%nat.
Proof.
  destruct (accumulate_newline string ex_std t_2024_01_05 "" 0 "msg" "" [])
    as (h & Hh & _ & _ & _ & _ & Ht).
  exists h. split; [exact Hh|]. apply Ht. simpl. lia.
Defined.

(** C3: on a discarding Logger [Println] still asks [runtime.Caller] for
    the caller and for its own frame before it returns; it is not so that a
    level function on a discarding Logger returns without any capture. *)
Lemma Println_discard_captures :
  discarding ex_silent = true
  /\ Println ansi_Green ansi_White ansi_Reset string ex_Sprint ex_funcName
       ex_callee ex_callee ex_callee ex_sink_write
       ex_stack t_2024_01_05 ex_silent ["Salom"] []
     = Some (ex_silent, [EvCaller 1; EvCaller 1; EvFuncForPC 4096])
  /\ ~ (forall (st : Stack) (std : Logger) (v : list string)
               (tr : list (Event string)),
          discarding std = true ->
          Println ansi_Green ansi_White ansi_Reset string ex_Sprint
            ex_funcName ex_callee ex_callee ex_callee ex_sink_write
            st t_2024_01_05 std v tr = Some (std, tr)).
Proof.
  split; [reflexivity|]. split; [reflexivity|].
  intro H. specialize (H ex_stack ex_silent ["Salom"] [] eq_refl).
  discriminate H.
Qed.

Lemma level_functions_discard_witness :
  discarding ex_silent = true
  /\ exists evs,
       Warning ansi_Yellow ansi_Reset string ex_Sprint ex_funcName
         ex_callee ex_callee ex_sink_write
         ex_stack t_2024_01_05 ex_silent ["x"] [] = Some (ex_silent, ([] ++ evs)%list)
       /\ In (EvCaller 1) evs
       /\ capture_only string evs = true /\ writes string evs = [].
Proof.
  split; [reflexivity|].
  exact (proj2 (proj2 (proj2
           (level_functions_discard ansi_Green ansi_Red ansi_Yellow ansi_Blue
              ansi_White ansi_Reset string ex_Sprint ex_funcName
              ex_callee ex_callee ex_callee ex_sink_write
              ex_stack t_2024_01_05 ex_silent ["x"] "m" None [] eq_refl)))).
Defined.

Lemma Error_renders_cause_witness :
  discarding ex_std = false
  /\ exists (h pre : string) (evs : list (Event string)),
       let m := pre ++ "ERROR: NO ERROR" ++ ansi_Reset in
       let p := ansi_Green ++ "TIME: "
                ++ (h ++ m ++ (if needs_newline m then nl else ""))
                ++ ansi_Reset in
       Error ansi_Green ansi_Red ansi_Reset string ex_funcName
         ex_callee ex_callee ex_sink_write
         ex_stack t_2024_01_05 ex_std "Color" None []
       = Some (set_buf ex_std p, ([] ++ evs)%list)
       /\ writes string evs = [(out ex_std, p)].
Proof.
  split; [reflexivity|].
  exact (proj1 (Error_renders_cause ansi_Green ansi_Red ansi_Reset string
                  ex_funcName ex_callee ex_callee ex_sink_write
                  ex_stack t_2024_01_05 ex_std "Color" [] eq_refl)).
Defined.


Lemma Output_caller_failure_witness :
  has (flag (New (Sink 2) "" Llongfile)) (Z.lor Lshortfile Llongfile) = true
  /\ ex_stack 7 = None
  /\ exists pre h : string,
       formatHeader (New (Sink 2) "" Llongfile) t_2024_01_05 "???" 0 ""
       = Some h
       /\ h = pre ++ "???:0: " ++ "".
Proof.
  split; [reflexivity|]. split; [reflexivity|].
  destruct (Output_caller_failure ansi_Reset string
              ex_sink_write ex_stack t_2024_01_05 (New (Sink 2) "" Llongfile)
              "main.main" ansi_Blue None 7 "hello" [] eq_refl eq_refl)
    as (pre & h & Hh & Heq & _).
  exists pre, h. split; [exact Hh | exact Heq].
Defined.

Lemma discard_flag_invariant_witness :
  discard_invariant ex_std /\ discard_invariant (SetOutput ex_std Discard).
Proof.
  assert (H : discard_invariant ex_std)
    by exact (proj1 discard_flag_invariant (Sink 2) "" LstdFlags).
  split; [exact H|].
  exact (proj2 (proj2 discard_flag_invariant) ex_std Discard H).
Defined.

(** Two calls picked in turn on a Logger that prints the file: the first
    to take the mutex writes its whole line first. *)
Example ex_interleaving :
  sh_sink (shared (run ansi_Reset ex_filed ex_calls ex_schedule
                     (init ex_filed)))
  = (ansi_Blue ++ "TIME: 2024/01/05 00:00:00 main.go:12: first" ++ nl
       ++ ansi_Reset)
    ++ (ansi_Yellow ++ "TIME: 2024/01/05 00:00:00 main.go:12: second" ++ nl
          ++ ansi_Reset).
Proof. vm_compute. reflexivity. Qed.

Lemma concurrent_Output_atomic_witness :
  let sg := run ansi_Reset ex_filed ex_calls ex_schedule (init ex_filed) in
  all_done 2 sg
  /\ exists order : list nat,
       Permutation order (seq 0 2)
       /\ sh_sink (shared sg)
          = flatten (map (fun i => written_alone ansi_Reset string
                                     ex_sink_write ex_filed (ex_calls i))
                       order).
Proof.
  intro sg.
  assert (Hd : all_done 2 sg).
  { intros i Hi. destruct i as [|[|i]];
      [vm_compute; reflexivity | vm_compute; reflexivity | lia]. }
  split; [exact Hd|].
  apply (proj1 (concurrent_Output_atomic ansi_Reset string ex_sink_write
                  ex_filed ex_calls 2) sg); [|exact Hd].
  apply run_steps. unfold ex_schedule.
  apply Forall_flat_map, Forall_forall. intros x _.
  repeat constructor.
Defined.

Lemma Lshortfile_first_byte_witness :
  "/a/b/c" <> "" /\ no_slash "d.ext" = true
  /\ shorten ("/a/b/c" ++ "/" ++ "d.ext") = "d.ext"
  /\ shorten ("/" ++ "d.ext") = "/" ++ "d.ext".
Proof.
  split; [discriminate|]. split; [reflexivity|]. split.
  - apply (proj1 Lshortfile_first_byte "/a/b/c" "d.ext");
      [discriminate | reflexivity].
  - apply (proj1 (proj2 Lshortfile_first_byte) "d.ext"). reflexivity.
Defined.

(** ** Instances of the further properties *)




Lemma formatHeader_LUTC_witness :
  has (flag (New (Sink 2) "" (Z.lor LstdFlags LUTC))) LUTC = true
  /\ formatHeader (New (Sink 2) "" (Z.lor LstdFlags LUTC))
       t_2024_01_05_cet "" 0 ""
     = formatHeader (New (Sink 2) "" (Z.lor LstdFlags LUTC))
         t_2024_01_05 "" 0 "".
Proof.
  split; [reflexivity|].
  exact (formatHeader_LUTC (New (Sink 2) "" (Z.lor LstdFlags LUTC))
           t_2024_01_05_cet t_2024_01_05 "" 0 "" eq_refl eq_refl eq_refl).
Defined.

Lemma Lmsgprefix_moves_prefix_witness :
  exists mid : string,
    formatHeader (New (Sink 2) "log: " LstdFlags) t_2024_01_05 "" 0 ""
    = Some ("" ++ "log: " ++ mid)
    /\ formatHeader (New (Sink 2) "log: " (Z.lor LstdFlags Lmsgprefix))
         t_2024_01_05 "" 0 ""
       = Some ("" ++ mid ++ "log: ").
Proof.
  destruct (Lmsgprefix_moves_prefix (New (Sink 2) "log: " LstdFlags)
              (New (Sink 2) "log: " (Z.lor LstdFlags Lmsgprefix))
              t_2024_01_05 "" 0 eq_refl eq_refl eq_refl) as [mid H].
  exists mid. exact (H "").
Defined.

Lemma redundant_flags_witness :
  formatHeader (New (Sink 2) "" (Z.lor Lshortfile Llongfile))
    t_2024_01_05 "/a/b/c/d.ext" 23 ""
  = formatHeader (New (Sink 2) "" Lshortfile) t_2024_01_05 "/a/b/c/d.ext" 23 "".
Proof.
  exact (redundant_flags (New (Sink 2) "" Lshortfile)
           (New (Sink 2) "" (Z.lor Lshortfile Llongfile))
           t_2024_01_05 "/a/b/c/d.ext" 23 "" eq_refl
           (or_introl (conj eq_refl eq_refl))).
Defined.

Lemma formatHeader_width_witness :
  exists h : string,
    formatHeader ex_std t_2024_01_05 "/app/main.go" 12 "" = Some ("" ++ h)
    /\ length h = 20%nat.
Proof.
  destruct (formatHeader_width ex_std t_2024_01_05 "" 0 eq_refl)
    as (h & H1 & _ & H3).
  - intros _. vm_compute. split; discriminate.
  - exists h. split; [exact (H1 "/app/main.go" 12 "") | exact (H3 eq_refl)].
Defined.

Lemma Output_on_Discard_witness :
  out ex_silent = Discard
  /\ exists (h : string) (evs : list (Event string)),
       Output ansi_Reset string ex_sink_write ex_stack t_2024_01_05 ex_silent
         "main.main" ansi_Blue None 2 "hello" []
       = Some ((set_buf ex_silent (line_bytes ansi_Reset ansi_Blue h "hello"),
                None), ([] ++ evs)%list)
       /\ writes string evs
          = [(Discard, line_bytes ansi_Reset ansi_Blue h "hello")].
Proof.
  split; [reflexivity|].
  destruct (Output_on_Discard ansi_Reset string ex_sink_write ex_stack
              t_2024_01_05 ex_silent "main.main" ansi_Blue None 2 "hello" []
              eq_refl) as (h & evs & H1 & H2 & _).
  exists h, evs. split; assumption.
Defined.

Lemma Output_caller_found_witness :
  ex_stack 1 = Some ex_user
  /\ exists pre : string,
       formatHeader (New (Sink 2) "" Llongfile) t_2024_01_05
         "/app/main.go" 12 ""
       = Some (pre ++ ("/app/main.go" ++ ":" ++ "12" ++ ": ") ++ "").
Proof.
  split; [reflexivity|].
  destruct (Output_caller_found ansi_Reset string ex_sink_write ex_stack
              t_2024_01_05 (New (Sink 2) "" Llongfile) "main.main" ansi_Blue
              None 1 "hello" [] ex_user eq_refl eq_refl)
    as (pre & H & _).
  - simpl. lia.
  - exists pre. exact H.
Defined.

Lemma Println_line_witness :
  discarding ex_std = false
  /\ exists (p : string) (evs : list (Event string)),
       Println ansi_Green ansi_White ansi_Reset string ex_Sprint ex_funcName
         ex_callee ex_callee ex_callee ex_sink_write
         ex_stack t_2024_01_05 ex_std ["Salom"] []
       = Some (set_buf ex_std p, ([] ++ evs)%list)
       /\ writes string evs = [(Sink 2, p)]
       /\ captures string evs = [1; 1; 1].
Proof.
  split; [reflexivity|].
  destruct (Println_line ansi_Green ansi_White ansi_Reset string ex_Sprint
              ex_funcName ex_callee ex_callee ex_callee ex_sink_write
              ex_stack t_2024_01_05 ex_std ["Salom"] [] eq_refl)
    as (h & evs & _ & H1 & H2 & H3).
  eexists. exists evs. split; [exact H1|]. split; [exact H2 | exact H3].
Defined.

Lemma Info_line_witness :
  discarding ex_std = false
  /\ exists (p : string) (evs : list (Event string)),
       Info ansi_Blue ansi_Reset string ex_Sprint ex_funcName
         ex_callee ex_callee ex_sink_write
         ex_stack t_2024_01_05 ex_std ["Salom"] []
       = Some (set_buf ex_std p, ([] ++ evs)%list)
       /\ writes string evs = [(Sink 2, p)]
       /\ captures string evs = [1; 1].
Proof.
  split; [reflexivity|].
  destruct (Info_line ansi_Blue ansi_Reset string ex_Sprint
              ex_funcName ex_callee ex_callee ex_sink_write
              ex_stack t_2024_01_05 ex_std ["Salom"] [] eq_refl)
    as (h & evs & _ & H1 & H2 & H3).
  eexists. exists evs. split; [exact H1|]. split; [exact H2 | exact H3].
Defined.

Lemma Warning_line_witness :
  discarding ex_filed = false
  /\ exists (p : string) (evs : list (Event string)),
       Warning ansi_Yellow ansi_Reset string ex_Sprint ex_funcName
         ex_callee ex_callee ex_sink_write
         ex_stack t_2024_01_05 ex_filed ["Salom"] []
       = Some (set_buf ex_filed p, ([] ++ evs)%list)
       /\ writes string evs = [(Sink 2, p)]
       /\ captures string evs = [1; 1; 2].
Proof.
  split; [reflexivity|].
  destruct (Warning_line ansi_Yellow ansi_Reset string ex_Sprint
              ex_funcName ex_callee ex_callee ex_sink_write
              ex_stack t_2024_01_05 ex_filed ["Salom"] [] eq_refl)
    as (h & evs & _ & H1 & H2 & H3).
  eexists. exists evs. split; [exact H1|]. split; [exact H2 | exact H3].
Defined.

Lemma level_lines_end_witness :
  ansi_Reset <> "" /\ ends_with_newline ansi_Reset = false
  /\ exists (x : string) (evs : list (Event string)),
       Info ansi_Blue ansi_Reset string ex_Sprint ex_funcName
         ex_callee ex_callee ex_sink_write
         ex_stack t_2024_01_05 ex_std ["Salom"] []
       = Some (set_buf ex_std (x ++ ansi_Reset ++ nl ++ ansi_Reset),
               ([] ++ evs)%list).
Proof.
  split; [discriminate|]. split; [reflexivity|].
  destruct (level_lines_end ansi_Green ansi_Red ansi_Yellow ansi_Blue
              ansi_White ansi_Reset string ex_Sprint ex_funcName
              ex_callee ex_callee ex_callee ex_sink_write
              ex_stack t_2024_01_05 ex_std ["Salom"] "m" None []
              ltac:(discriminate) eq_refl eq_refl)
    as (_ & (x & evs & H & _) & _).
  exists x, evs. exact H.
Defined.

Lemma level_location_witness :
  ex_stack 1 = Some ex_user
  /\ exists pre : string,
       level_lines ansi_Green ansi_Red ansi_Yellow ansi_Blue ansi_White
         ansi_Reset string ex_Sprint ex_funcName ex_callee ex_callee
         ex_callee ex_sink_write ex_stack t_2024_01_05 ex_filed ["Salom"]
         "m" None []
         (pre ++ ("main.go" ++ ":" ++ "12" ++ ": ") ++ "")
         "/app/main.go" 12.
Proof.
  split; [reflexivity|].
  destruct (level_location ansi_Green ansi_Red ansi_Yellow ansi_Blue
              ansi_White ansi_Reset string ex_Sprint ex_funcName
              ex_callee ex_callee ex_callee ex_sink_write
              ex_stack t_2024_01_05 ex_filed ["Salom"] "m" None [] ex_user
              eq_refl eq_refl eq_refl)
    as (pre & H).
  - simpl. lia.
  - exists pre. exact H.
Defined.


Lemma level_functions_sink_witness :
  discard_invariant ex_silent
  /\ exists evs : list (Event string),
       Warning ansi_Yellow ansi_Reset string ex_Sprint ex_funcName
         ex_callee ex_callee ex_sink_write
         ex_stack t_2024_01_05 ex_silent ["Salom"] []
       = Some (ex_silent, ([] ++ evs)%list)
       /\ writes string evs = [].
Proof.
  assert (Hinv : discard_invariant ex_silent)
    by exact (New_invariant Discard "" LstdFlags).
  split; [exact Hinv|].
  destruct (level_functions_sink ansi_Green ansi_Red ansi_Yellow ansi_Blue
              ansi_White ansi_Reset string ex_Sprint ex_funcName
              ex_callee ex_callee ex_callee ex_sink_write
              ex_stack t_2024_01_05 ex_silent ["Salom"] "m" None []
              (Warning ansi_Yellow ansi_Reset string ex_Sprint ex_funcName
                 ex_callee ex_callee ex_sink_write
                 ex_stack t_2024_01_05 ex_silent ["Salom"] [])
              Hinv (or_intror (or_intror (or_intror (or_introl eq_refl)))))
    as (std' & evs & H & _ & _ & _ & _ & Hw).
  exists evs. split; [|exact Hw].
  rewrite H. f_equal. f_equal.
  vm_compute in H. now injection H as <- _.
Defined.

Lemma mutex_discipline_witness :
  sh_mu (shared (run ansi_Reset ex_filed ex_calls ex_schedule
                   (init ex_filed))) = None.
Proof.
  assert (Hd : all_done 2 (run ansi_Reset ex_filed ex_calls ex_schedule
                             (init ex_filed))).
  { intros i Hi. destruct i as [|[|i]];
      [vm_compute; reflexivity | vm_compute; reflexivity | lia]. }
  apply (proj2 (proj2 (mutex_discipline ansi_Reset ex_filed ex_calls 2 _
                         (run_steps ansi_Reset ex_filed ex_calls 2
                            ex_schedule (init ex_filed)
                            ltac:(unfold ex_schedule;
                                  apply Forall_flat_map, Forall_forall;
                                  intros x _; repeat constructor))))).
  exact Hd.
Defined.

Lemma main_lines_witness :
  ex_main_stack 0 = Some ex_main
  /\ exists (std' : Logger) (evs : list (Event string)),
       main ansi_Green ansi_Red ansi_Yellow ansi_Blue ansi_White ansi_Reset
         string ex_Sprint ex_funcName ex_callee ex_callee ex_callee
         ex_sink_write (fun s => s) ex_level ex_level ex_level ex_level
         ex_main_stack t_2024_01_05 t_2024_01_05 t_2024_01_05 t_2024_01_05
         t_2024_01_05 ex_std []
       = Some (std', ([] ++ evs)%list)
       /\ map fst (writes string evs) = [Sink 2; Sink 2; Sink 2; Sink 2; Sink 2].
Proof.
  split; [reflexivity|].
  destruct (main_lines ansi_Green ansi_Red ansi_Yellow ansi_Blue ansi_White
              ansi_Reset string ex_Sprint ex_funcName ex_callee ex_callee
              ex_callee ex_sink_write (fun s => s) ex_level ex_level ex_level
              ex_level ex_main_stack t_2024_01_05 t_2024_01_05 t_2024_01_05
              t_2024_01_05 t_2024_01_05 ex_std [] ex_main eq_refl)
    as (evs & Hm & Hw).
  eexists. exists evs. split; [exact Hm|]. rewrite Hw. reflexivity.
Defined.
